(** * DatetimeFormatter: datetime columns to timestamps and back

    A shallow embedding of [sdgx/data_processors/formatters/datetime.py]:
    the per-cell conversions, the [fit] / [convert] / [reverse_convert]
    methods of [DatetimeFormatter], and the pandas operations they rely on.

    Python objects that are mutated or shared (data frames) live in an
    explicit store and are passed by reference; exceptions are results.
    Calls to [logger] have no effect on control flow or data and are left
    out. *)

From Stdlib Require Import ZArith QArith String Ascii List Lia DecimalString.
From stdpp Require Import gmap strings list.

Open Scope string_scope.
Open Scope list_scope.

(** ** Python values held by the cells of a data frame *)

(** A naive [datetime.datetime] (also the calendar fields of a
    [pd.Timestamp]). *)
Record datetime : Type := mk_datetime {
  year : Z; month : Z; day : Z;
  hour : Z; minute : Z; second : Z; microsecond : Z
}.

(** The values for which [pd.isna] answers [True]. *)
Inductive missing : Type :=
| PyNone   (* None *)
| NaN      (* float('nan'), np.nan *)
| NaT.     (* pd.NaT *)

(** Python numbers.  Comparisons between [int] and [float] are exact in
    Python, so a finite float is represented by the rational it denotes. *)
Inductive number : Type :=
| Int (z : Z)
| Float (q : Q)
| Inf (negative : bool).

Inductive value : Type :=
| Missing (m : missing)
| Str (s : string)
| Native (d : datetime)    (* datetime.datetime or pd.Timestamp *)
| Num (x : number).

(** ** The platform's datetime library

    [datetime.strptime], [datetime.timestamp], [datetime.fromtimestamp]
    and [datetime.strftime] belong to the Python runtime; the last three
    depend on the local time zone and on the C library.  [None] stands for
    a raised exception.  [float_repr] is [str] on a finite float. *)
Class Platform : Type := {
  strptime : string -> string -> option datetime;
  timestamp : datetime -> option Q;
  fromtimestamp : Q -> option datetime;
  strftime : datetime -> string -> option string;
  float_repr : Q -> string
}.

Definition string_of_Z (z : Z) : string := NilZero.string_of_int (Z.to_int z).

(** Zero-padded decimal of a non-negative number, at least [width] digits. *)
Fixpoint zeros (n : nat) : string :=
  match n with
  | O => ""
  | S k => String "0" (zeros k)
  end.

Definition zfill (width : nat) (z : Z) : string :=
  let s := string_of_Z z in
  zeros (width - String.length s) ++ s.

(** [datetime.__str__]: ISO format with a space separator. *)
Definition datetime_str (d : datetime) : string :=
  zfill 4 (year d) ++ "-" ++ zfill 2 (month d) ++ "-" ++ zfill 2 (day d) ++ " "
  ++ zfill 2 (hour d) ++ ":" ++ zfill 2 (minute d) ++ ":" ++ zfill 2 (second d)
  ++ (if (microsecond d =? 0)%Z then "" else "." ++ zfill 6 (microsecond d)).

Section Cells.
Context `{Platform}.

Definition str_number (x : number) : string :=
  match x with
  | Int z => string_of_Z z
  | Float q => float_repr q
  | Inf negative => if negative then "-inf" else "inf"
  end.

(** Python's [str(each_value)]. *)
Definition str (v : value) : string :=
  match v with
  | Missing PyNone => "None"
  | Missing NaN => "nan"
  | Missing NaT => "NaT"
  | Str s => s
  | Native d => datetime_str d
  | Num x => str_number x
  end.

(** [pd.isna(each_value)] on a scalar cell. *)
Definition isna (v : value) : bool :=
  match v with
  | Missing _ => true
  | _ => false
  end.

(** [datetime.timestamp(each_value)] as a Python float. *)
Definition datetime_timestamp (d : datetime) : option value :=
  t ← timestamp d; Some (Num (Float t)).

(** The body of the [try] block of [datetime_formatter]; [None] is an
    exception reaching [except Exception]. *)
Definition datetime_formatter_try (each_value : value) (datetime_format : string)
  : option value :=
  if isna each_value then Some (Missing NaN)
  else match each_value with
       | Native d => datetime_timestamp d
       | _ =>
           datetime_obj ← strptime (str each_value) datetime_format;
           datetime_timestamp datetime_obj
       end.

(** [datetime_formatter] (datetime.py, lines 135-155): a raised exception
    is logged and replaced by [np.nan]. *)
Definition datetime_formatter (each_value : value) (datetime_format : string) : value :=
  default (Missing NaN) (datetime_formatter_try each_value datetime_format).

(** The largest timestamp [column_timestamp_formatter] accepts. *)
Definition MAX_TIMESTAMP : Z := 253402300799.

Definition number_le_Z (x : number) (z : Z) : bool :=
  match x with
  | Int n => (n <=? z)%Z
  | Float q => Qle_bool q (inject_Z z)
  | Inf negative => negative
  end.

Definition Z_le_number (z : Z) (x : number) : bool :=
  match x with
  | Int n => (z <=? n)%Z
  | Float q => Qle_bool (inject_Z z) q
  | Inf negative => negb negative
  end.

(** [0 <= each_stamp <= 253402300799]; comparing an [int] with a string
    or a [datetime] raises [TypeError]. *)
Definition in_range (each_stamp : value) : option bool :=
  match each_stamp with
  | Num x => Some (Z_le_number 0 x && number_le_Z x MAX_TIMESTAMP)
  | _ => None
  end.

(** [datetime.fromtimestamp(each_stamp)]; a non-number raises
    [TypeError], an infinity raises [OverflowError]. *)
Definition datetime_fromtimestamp (each_stamp : value) : option datetime :=
  match each_stamp with
  | Num (Int z) => fromtimestamp (inject_Z z)
  | Num (Float q) => fromtimestamp q
  | _ => None
  end.

Definition NO_DATETIME : string := "No Datetime".

(** The body of the [try] block of [column_timestamp_formatter]. *)
Definition column_timestamp_formatter_try (each_stamp : value) (timestamp_format : string)
  : option string :=
  if isna each_stamp then Some NO_DATETIME
  else
    ok ← in_range each_stamp;
    if negb ok then Some NO_DATETIME
    else
      d ← datetime_fromtimestamp each_stamp;
      strftime d timestamp_format.

(** [column_timestamp_formatter] (datetime.py, lines 210-225): a raised
    exception is logged at debug level and replaced by the sentinel. *)
Definition column_timestamp_formatter (each_stamp : value) (timestamp_format : string)
  : string :=
  default NO_DATETIME (column_timestamp_formatter_try each_stamp timestamp_format).

End Cells.

(** ** Data frames in a store

    A [pd.DataFrame] is an ordered collection of named columns, the names
    being distinct.  Frames are Python objects: a variable holds a
    reference, [copy] allocates a new object and [df[column] = ...]
    updates the object in place. *)

Abbreviation Series := (list value).
Abbreviation DataFrame := (list (string * Series)).

Abbreviation ref := nat.
Abbreviation store := (list DataFrame).

Inductive exn : Type :=
| KeyError (key : string)
| DanglingReference (r : ref).   (* no Python counterpart: a reference outside the store *)

(** Computations that read and update the store and may raise. *)
Definition Py (A : Type) : Type := store -> (exn + A) * store.

#[export] Instance Py_ret : MRet Py := fun A a h => (inr a, h).
#[export] Instance Py_bind : MBind Py := fun A B f m h =>
  match m h with
  | (inl e, h') => (inl e, h')
  | (inr a, h') => f a h'
  end.

Definition raise {A : Type} (e : exn) : Py A := fun h => (inl e, h).

Definition deref (r : ref) : Py DataFrame := fun h =>
  match h !! r with
  | Some t => (inr t, h)
  | None => (inl (DanglingReference r), h)
  end.

Definition alloc (t : DataFrame) : Py ref := fun h => (inr (length h), h ++ [t]).

Definition assign (r : ref) (t : DataFrame) : Py unit := fun h => (inr tt, <[r := t]> h).

(** [for x in l: body(x)] *)
Fixpoint for_each {A : Type} (l : list A) (body : A -> Py unit) : Py unit :=
  match l with
  | [] => mret tt
  | x :: l' => _ ← body x; for_each l' body
  end.

(** [for x in l: s = body(s, x)], the loop rebinding a local variable. *)
Fixpoint for_fold {A S : Type} (l : list A) (s : S) (body : S -> A -> Py S) : Py S :=
  match l with
  | [] => mret s
  | x :: l' => s' ← body s x; for_fold l' s' body
  end.

Definition columns (t : DataFrame) : list string := t.*1.

Fixpoint getitem (column : string) (t : DataFrame) : option Series :=
  match t with
  | [] => None
  | (c, s) :: t' => if decide (c = column) then Some s else getitem column t'
  end.

(** [df[column] = s]: an existing column is replaced where it stands, a
    new one is added last. *)
Definition setitem (column : string) (s : Series) (t : DataFrame) : DataFrame :=
  if bool_decide (column ∈ columns t)
  then (fun e : string * Series => if decide (e.1 = column) then (e.1, s) else e) <$> t
  else t ++ [(column, s)].

Definition drop_columns (names : list string) (t : DataFrame) : DataFrame :=
  filter (fun e : string * Series => e.1 ∉ names) t.

(** [df.copy()] *)
Definition df_copy (r : ref) : Py ref := t ← deref r; alloc t.

(** [df.columns] *)
Definition df_columns (r : ref) : Py (list string) := t ← deref r; mret (columns t).

(** [df[column]]: raises [KeyError] for an unknown column. *)
Definition df_getitem (r : ref) (column : string) : Py Series :=
  t ← deref r;
  match getitem column t with
  | Some s => mret s
  | None => raise (KeyError column)
  end.

(** [df[column] = s], in place. *)
Definition df_setitem (r : ref) (column : string) (s : Series) : Py unit :=
  t ← deref r; assign r (setitem column s t).

(** [series.apply(f)] *)
Definition apply (f : value -> value) (s : Series) : Series := f <$> s.

(** [d[key]] on a plain [dict]. *)
Definition dict_getitem (d : gmap string string) (key : string) : Py string :=
  match d !! key with
  | Some v => mret v
  | None => raise (KeyError key)
  end.

(** Modelled from the spec: [Formatter.remove_columns] of the base class
    (sdgx/data_processors/formatters/base.py, not part of the sources at
    hand).  The spec gives it as "remove named columns, no error if
    absent", returning a new table. *)
Definition remove_columns (tabular_data : ref) (column_name_to_remove : list string) : Py ref :=
  t ← deref tabular_data; alloc (drop_columns column_name_to_remove t).

(** ** Metadata and the state of the formatter *)

(** What [fit] reads from the [Metadata] object (the class itself,
    sdgx/data_models/metadata.py, is not part of the sources at hand).
    The datetime columns are a set there; the list gives them in the
    order the loop of [fit] meets them. *)
Record Metadata : Type := {
  meta_datetime_format : gmap string string;   (* metadata.get("datetime_format") *)
  meta_datetime_columns : list string;         (* metadata.get("datetime_columns") *)
  discrete_columns : list string               (* metadata.discrete_columns *)
}.

(** The methods [fit] calls on the [Metadata] object.  The calls are
    recorded in order, with their arguments; what they do to the metadata
    is not interpreted. *)
Inductive metadata_call : Type :=
| change_column_type (column_names : list string) (column_original_type column_new_type : string)
| remove_column (column_names : list string).

Record DatetimeFormatter : Type := {
  fitted : bool;
  datetime_columns : list string;
  datetime_formats : gmap string string;
  dead_columns : list string
}.

(** [DatetimeFormatter.__init__] *)
Definition init : DatetimeFormatter :=
  {| fitted := false; datetime_columns := []; datetime_formats := ∅; dead_columns := [] |}.

(** The loop of [fit] (lines 72-79): one pass over the datetime columns of
    the metadata, appending to one of the two lists. *)
Fixpoint fit_loop (formats : gmap string string) (meta_datetime_columns : list string)
    (datetime_columns dead_columns : list string) : list string * list string :=
  match meta_datetime_columns with
  | [] => (datetime_columns, dead_columns)
  | each_col :: rest =>
      if bool_decide (each_col ∈ dom formats)
      then fit_loop formats rest (datetime_columns ++ [each_col]) dead_columns
      else fit_loop formats rest datetime_columns (dead_columns ++ [each_col])
  end.

(** [fit] (lines 56-92).  The result is the new state of [self] and the
    calls made on [metadata]. *)
Definition fit (self : DatetimeFormatter) (metadata : Metadata)
    : DatetimeFormatter * list metadata_call :=
  let formats := meta_datetime_format metadata in
  let '(datetime_columns, dead_columns) :=
    fit_loop formats (meta_datetime_columns metadata) [] [] in
  let reclassify :=
    if bool_decide ((list_to_set datetime_columns : gset string)
                      ∖ list_to_set (discrete_columns metadata) = ∅)
    then [change_column_type datetime_columns "discrete" "datetime"]
    else [] in
  ({| fitted := true;
      datetime_columns := datetime_columns;
      datetime_formats := formats;
      dead_columns := dead_columns |},
   reclassify ++ [remove_column dead_columns]).

Section Formatter.
Context `{Platform}.

(** [convert_datetime_columns] (lines 122-168) *)
Definition convert_datetime_columns (datetime_column_list : list string)
    (datetime_formats : gmap string string) (processed_data : ref) : Py ref :=
  result_data ← df_copy processed_data;
  _ ← for_each datetime_column_list (fun column =>
        s ← df_getitem result_data column;
        datetime_format ← dict_getitem datetime_formats column;
        df_setitem result_data column
          (apply (fun each_value => datetime_formatter each_value datetime_format) s));
  mret result_data.

(** [convert] (lines 94-120) *)
Definition convert (self : DatetimeFormatter) (raw_data : ref) : Py ref :=
  if (length (datetime_columns self) =? 0)%nat then mret raw_data
  else
    raw_data ← for_fold (dead_columns self) raw_data
                 (fun raw_data each_col => remove_columns raw_data [each_col]);
    convert_datetime_columns (datetime_columns self) (datetime_formats self) raw_data.

(** [convert_timestamp_to_datetime] (lines 193-241) *)
Definition convert_timestamp_to_datetime (timestamp_column_list : list string)
    (format_dict : gmap string string) (processed_data : ref) : Py ref :=
  result_data ← df_copy processed_data;
  _ ← for_each timestamp_column_list (fun column =>
        cols ← df_columns result_data;
        if bool_decide (column ∈ cols)
        then
          s ← df_getitem result_data column;
          timestamp_format ← dict_getitem format_dict column;
          df_setitem result_data column
            (apply (fun each_stamp =>
                      Str (column_timestamp_formatter each_stamp timestamp_format)) s)
        else mret tt);
  mret result_data.

(** [reverse_convert] (lines 170-191) *)
Definition reverse_convert (self : DatetimeFormatter) (processed_data : ref) : Py ref :=
  if (length (datetime_columns self) =? 0)%nat then mret processed_data
  else convert_timestamp_to_datetime
         (datetime_columns self) (datetime_formats self) processed_data.

End Formatter.

(** ** A reference platform: proleptic Gregorian calendar, time zone UTC

    An executable instance of [Platform], on which the formatter can be
    run.  Local time is UTC.  The format directives understood are the
    numeric ones, [%Y %m %d %H %M %S %f], and [%%]; every other character
    of a format stands for itself.  A format with another directive is
    rejected. *)
Module UTC.

Definition is_leap (y : Z) : bool :=
  ((y mod 4 =? 0) && negb (y mod 100 =? 0) || (y mod 400 =? 0))%Z.

Definition days_in_month (y m : Z) : Z :=
  if (m =? 2)%Z then (if is_leap y then 29 else 28)
  else if ((m =? 4) || (m =? 6) || (m =? 9) || (m =? 11))%Z then 30
  else 31.

(** The fields a [datetime] object can hold. *)
Definition valid (d : datetime) : bool :=
  ((1 <=? year d) && (year d <=? 9999)
   && (1 <=? month d) && (month d <=? 12)
   && (1 <=? day d) && (day d <=? days_in_month (year d) (month d))
   && (0 <=? hour d) && (hour d <=? 23)
   && (0 <=? minute d) && (minute d <=? 59)
   && (0 <=? second d) && (second d <=? 59)
   && (0 <=? microsecond d) && (microsecond d <=? 999999))%Z.

(** Days from 1970-01-01 to the civil date [y]-[m]-[d]. *)
Definition days_from_civil (y m d : Z) : Z :=
  let y' := (if m <=? 2 then y - 1 else y)%Z in
  let era := (y' / 400)%Z in
  let yoe := (y' - era * 400)%Z in
  let mp := (if 2 <? m then m - 3 else m + 9)%Z in
  let doy := ((153 * mp + 2) / 5 + d - 1)%Z in
  let doe := (yoe * 365 + yoe / 4 - yoe / 100 + doy)%Z in
  (era * 146097 + doe - 719468)%Z.

(** The civil date that lies [z] days after 1970-01-01. *)
Definition civil_from_days (z : Z) : Z * Z * Z :=
  let z' := (z + 719468)%Z in
  let era := (z' / 146097)%Z in
  let doe := (z' - era * 146097)%Z in
  let yoe := ((doe - doe / 1460 + doe / 36524 - doe / 146096) / 365)%Z in
  let doy := (doe - (365 * yoe + yoe / 4 - yoe / 100))%Z in
  let mp := ((5 * doy + 2) / 153)%Z in
  let d := (doy - (153 * mp + 2) / 5 + 1)%Z in
  let m := (if mp <? 10 then mp + 3 else mp - 9)%Z in
  let y := (yoe + era * 400 + (if m <=? 2 then 1 else 0))%Z in
  (y, m, d).

Definition utc_timestamp (d : datetime) : option Q :=
  if valid d then
    let secs := (days_from_civil (year d) (month d) (day d) * 86400
                 + hour d * 3600 + minute d * 60 + second d)%Z in
    Some (Qmake (secs * 1000000 + microsecond d) 1000000)
  else None.

(** Rounding to the nearest integer, ties to even. *)
Definition round_half_even (q : Q) : Z :=
  let n := Qnum q in
  let d := Z.pos (Qden q) in
  let fl := (n / d)%Z in
  let r := (n mod d)%Z in
  if (2 * r <? d)%Z then fl
  else if (d <? 2 * r)%Z then (fl + 1)%Z
  else if Z.even fl then fl else (fl + 1)%Z.

Definition utc_fromtimestamp (t : Q) : option datetime :=
  let us_total := round_half_even (Qmult t (inject_Z 1000000)) in
  let secs := (us_total / 1000000)%Z in
  let us := (us_total mod 1000000)%Z in
  let days := (secs / 86400)%Z in
  let rem := (secs mod 86400)%Z in
  let '(y, m, d) := civil_from_days days in
  if ((1 <=? y) && (y <=? 9999))%Z
  then Some (mk_datetime y m d (rem / 3600) (rem mod 3600 / 60) (rem mod 60) us)
  else None.

Fixpoint utc_strftime_go (d : datetime) (fmt : string) : option string :=
  match fmt with
  | "" => Some ""
  | String "%" (String c fmt') =>
      piece ← (if Ascii.eqb c "Y" then Some (zfill 4 (year d))
               else if Ascii.eqb c "m" then Some (zfill 2 (month d))
               else if Ascii.eqb c "d" then Some (zfill 2 (day d))
               else if Ascii.eqb c "H" then Some (zfill 2 (hour d))
               else if Ascii.eqb c "M" then Some (zfill 2 (minute d))
               else if Ascii.eqb c "S" then Some (zfill 2 (second d))
               else if Ascii.eqb c "f" then Some (zfill 6 (microsecond d))
               else if Ascii.eqb c "%" then Some "%"
               else None);
      rest ← utc_strftime_go d fmt';
      Some (piece ++ rest)%string
  | String a fmt' =>
      rest ← utc_strftime_go d fmt';
      Some (String a rest)
  end.

Definition utc_strftime (d : datetime) (fmt : string) : option string :=
  utc_strftime_go d fmt.

Definition digit (a : ascii) : option Z :=
  let n := nat_of_ascii a in
  if ((48 <=? n) && (n <=? 57))%nat then Some (Z.of_nat (n - 48)) else None.

(** Read exactly [k] decimal digits. *)
Fixpoint read_digits (k : nat) (s : string) (acc : Z) : option (Z * string) :=
  match k with
  | O => Some (acc, s)
  | S k' =>
      match s with
      | String a s' => v ← digit a; read_digits k' s' (acc * 10 + v)%Z
      | "" => None
      end
  end.

Inductive field : Type := FYear | FMonth | FDay | FHour | FMinute | FSecond | FMicro.

(** The field a directive fills and the digit counts it accepts, in the
    order they are tried. *)
Definition directive (c : ascii) : option (field * list nat) :=
  if Ascii.eqb c "Y" then Some (FYear, [4%nat])
  else if Ascii.eqb c "m" then Some (FMonth, [2%nat; 1%nat])
  else if Ascii.eqb c "d" then Some (FDay, [2%nat; 1%nat])
  else if Ascii.eqb c "H" then Some (FHour, [2%nat; 1%nat])
  else if Ascii.eqb c "M" then Some (FMinute, [2%nat; 1%nat])
  else if Ascii.eqb c "S" then Some (FSecond, [2%nat; 1%nat])
  else if Ascii.eqb c "f" then Some (FMicro, [6%nat; 5%nat; 4%nat; 3%nat; 2%nat; 1%nat])
  else None.

Definition field_ok (f : field) (v : Z) : bool :=
  match f with
  | FYear => true
  | FMonth => (1 <=? v) && (v <=? 12)
  | FDay => (1 <=? v) && (v <=? 31)
  | FHour => (v <=? 23)
  | FMinute | FSecond => (v <=? 59)
  | FMicro => true
  end%Z.

Definition set_field (f : field) (w : nat) (v : Z) (d : datetime) : datetime :=
  match f with
  | FYear => mk_datetime v (month d) (day d) (hour d) (minute d) (second d) (microsecond d)
  | FMonth => mk_datetime (year d) v (day d) (hour d) (minute d) (second d) (microsecond d)
  | FDay => mk_datetime (year d) (month d) v (hour d) (minute d) (second d) (microsecond d)
  | FHour => mk_datetime (year d) (month d) (day d) v (minute d) (second d) (microsecond d)
  | FMinute => mk_datetime (year d) (month d) (day d) (hour d) v (second d) (microsecond d)
  | FSecond => mk_datetime (year d) (month d) (day d) (hour d) (minute d) v (microsecond d)
  | FMicro => mk_datetime (year d) (month d) (day d) (hour d) (minute d) (second d)
                (v * 10 ^ Z.of_nat (6 - w))%Z
  end.

Definition first_some {A : Type} (l : list (option A)) : option A :=
  foldr (fun o acc => match o with Some x => Some x | None => acc end) None l.

Fixpoint utc_strptime_go (fmt s : string) (d : datetime) : option datetime :=
  match fmt with
  | "" => match s with "" => Some d | _ => None end
  | String "%" (String c fmt') =>
      if Ascii.eqb c "%" then
        match s with
        | String b s' => if Ascii.eqb b "%" then utc_strptime_go fmt' s' d else None
        | "" => None
        end
      else
        '(f, widths) ← directive c;
        first_some
          ((fun w : nat =>
              '(v, s') ← read_digits w s 0%Z;
              if field_ok f v then utc_strptime_go fmt' s' (set_field f w v d) else None)
             <$> widths)
  | String a fmt' =>
      match s with
      | String b s' => if Ascii.eqb a b then utc_strptime_go fmt' s' d else None
      | "" => None
      end
  end.

(** Fields left out by the format take the values of 1900-01-01 00:00:00. *)
Definition utc_strptime (s fmt : string) : option datetime :=
  d ← utc_strptime_go fmt s (mk_datetime 1900 1 1 0 0 0 0);
  if valid d then Some d else None.

Fixpoint strip_zeros (digits : list ascii) : list ascii :=
  match digits with
  | [] => []
  | a :: rest =>
      match strip_zeros rest with
      | [] => if Ascii.eqb a "0" then [] else [a]
      | rest' => a :: rest'
      end
  end.

(** [str] of a float that counts microseconds: the integer part, a point
    and the fractional digits without trailing zeros (at least one). *)
Definition utc_float_repr (q : Q) : string :=
  let us_total := round_half_even (Qmult q (inject_Z 1000000)) in
  let a := Z.abs us_total in
  let frac := string_of_list_ascii
                (strip_zeros (list_ascii_of_string (zfill 6 (a mod 1000000)))) in
  (if (us_total <? 0)%Z then "-" else "")
  ++ string_of_Z (a / 1000000) ++ "."
  ++ (if String.eqb frac "" then "0" else frac).

#[export] Instance platform : Platform := {|
  strptime := utc_strptime;
  timestamp := utc_timestamp;
  fromtimestamp := utc_fromtimestamp;
  strftime := utc_strftime;
  float_repr := utc_float_repr
|}.

End UTC.

(** ** A platform east of Greenwich

    Local time is eight hours ahead of UTC: a naive datetime is a local
    time, so its timestamp lies eight hours before that of the same fields
    read as UTC, and [fromtimestamp] gives the fields of the local time.
    Strings are read and written as on the reference platform. *)
Module East.

Definition utc_offset : Z := 28800.

Definition east_timestamp (d : datetime) : option Q :=
  t ← UTC.utc_timestamp d; Some (Qminus t (inject_Z utc_offset)).

Definition east_fromtimestamp (t : Q) : option datetime :=
  UTC.utc_fromtimestamp (Qplus t (inject_Z utc_offset)).

#[export] Instance platform : Platform := {|
  strptime := UTC.utc_strptime;
  timestamp := east_timestamp;
  fromtimestamp := east_fromtimestamp;
  strftime := UTC.utc_strftime;
  float_repr := UTC.utc_float_repr
|}.

End East.

(** ** Notions used to state the properties *)

(** The cell of a frame at a column and a row. *)
Definition cell (t : DataFrame) (column : string) (row : nat) : option value :=
  s ← getitem column t; s !! row.

(** A number within the closed interval from 0 to [MAX_TIMESTAMP]. *)
Definition inside_range (x : number) : Prop :=
  match x with
  | Int n => (0 <= n <= MAX_TIMESTAMP)%Z
  | Float q => (0 <= q)%Q ∧ (q <= inject_Z MAX_TIMESTAMP)%Q
  | Inf _ => False
  end.

(** A number below 0 or above [MAX_TIMESTAMP]. *)
Definition outside_range (x : number) : Prop :=
  match x with
  | Int n => (n < 0 ∨ MAX_TIMESTAMP < n)%Z
  | Float q => (q < 0)%Q ∨ (inject_Z MAX_TIMESTAMP < q)%Q
  | Inf _ => True
  end.

(** The state [fit] leaves in the formatter. *)
Definition fitted_with (metadata : Metadata) : DatetimeFormatter := (fit init metadata).1.

(** One pass of a per-column function over the named columns of a frame:
    what the loops of [convert_datetime_columns] and
    [convert_timestamp_to_datetime] leave in [result_data]. *)
Definition map_column (g : string -> value -> value) (t : DataFrame) (column : string)
    : DataFrame :=
  match getitem column t with
  | Some s => setitem column (apply (g column) s) t
  | None => t
  end.

Definition map_columns (g : string -> value -> value) (column_list : list string)
    (t : DataFrame) : DataFrame :=
  foldl (map_column g) t column_list.

Section Passes.
Context `{Platform}.

(** The cell function [convert] applies in a column. *)
Definition forward (formats : gmap string string) (column : string) (v : value) : value :=
  match formats !! column with
  | Some f => datetime_formatter v f
  | None => v
  end.

(** The cell function [reverse_convert] applies in a column. *)
Definition backward (formats : gmap string string) (column : string) (v : value) : value :=
  match formats !! column with
  | Some f => Str (column_timestamp_formatter v f)
  | None => v
  end.
End Passes.

(** ** Sample metadata and frames *)
Module Scenario.

(** A date column with a format, a datetime column without one and a
    column of another kind. *)
Definition metadata : Metadata :=
  {| meta_datetime_format := {[ "date" := "%Y-%m-%d" ]};
     meta_datetime_columns := ["date"; "seen"];
     discrete_columns := ["date"; "seen"; "city"] |}.

Definition frame : DataFrame :=
  [("date", [Str "2023-01-01"; Str "invalid"; Str "1992-05-15"]);
   ("seen", [Str "01/01/23"; Str "02/01/23"; Str "03/01/23"]);
   ("city", [Str "Oslo"; Str "Lima"; Str "Pune"])].

(** The date column already holds numbers. *)
Definition numeric_frame : DataFrame :=
  [("date", [Num (Float (inject_Z 1672531200)); Num (Int 20230101); Missing NaN]);
   ("city", [Str "Oslo"; Str "Lima"; Str "Pune"])].

(** A frame as a generator gives it back: timestamps, a missing cell and
    a number past the last timestamp. *)
Definition generated_frame : DataFrame :=
  [("date", [Num (Float (inject_Z 1672531200)); Missing NaN; Num (Int 253402300800)]);
   ("city", [Str "Oslo"; Str "Lima"; Str "Pune"])].

(** No datetime column has a format. *)
Definition unformatted : Metadata :=
  {| meta_datetime_format := ∅;
     meta_datetime_columns := ["seen"];
     discrete_columns := ["seen"; "city"] |}.

(** Two datetime columns with formats, and a frame that has only one of
    them. *)
Definition two_dates : Metadata :=
  {| meta_datetime_format := {[ "date" := "%Y-%m-%d"; "time" := "%H:%M:%S" ]};
     meta_datetime_columns := ["date"; "time"];
     discrete_columns := ["date"; "time"] |}.

Definition only_date : DataFrame :=
  [("date", [Str "2023-01-01"; Str "invalid"; Str "1992-05-15"])].


(** The date column is not classified as discrete. *)
Definition not_discrete : Metadata :=
  {| meta_datetime_format := {[ "date" := "%Y-%m-%d" ]};
     meta_datetime_columns := ["date"];
     discrete_columns := ["city"] |}.

(** The date column mixes a native datetime, a text and a missing cell. *)
Definition mixed_frame : DataFrame :=
  [("date", [Native (mk_datetime 2023 1 1 0 0 0 0); Str "2023-01-01"; Missing PyNone]);
   ("city", [Str "Oslo"; Str "Lima"; Str "Pune"])].




End Scenario.

(** ** Tactics for closed goals *)

(** Closed decidable goals, by evaluation. *)
Ltac evaluate := apply (bool_decide_unpack _); vm_compute; exact I.


(** * Properties *)

(** ** Columns of a frame *)

Section Frames.
Implicit Types (t : DataFrame) (s : Series) (c : string).

Lemma getitem_is_Some c t : is_Some (getitem c t) ↔ c ∈ columns t.
Proof.
  unfold columns. induction t as [|[c0 s0] t IH]; simpl.
  - split; [intros [? ?]; discriminate | intros ?%elem_of_nil; done].
  - case_decide as Hc; subst.
    + split; [intros _; left | eauto].
    + rewrite IH. set_solver.
Qed.

Lemma getitem_None c t : getitem c t = None ↔ c ∉ columns t.
Proof. rewrite <- getitem_is_Some, eq_None_not_Some. done. Qed.

Lemma columns_setitem c s t : c ∈ columns t → columns (setitem c s t) = columns t.
Proof.
  intros Hin. unfold setitem. rewrite bool_decide_eq_true_2 by done.
  unfold columns. rewrite <- list_fmap_compose. apply list_fmap_ext.
  intros i [c0 s0] _. simpl. by case_decide.
Qed.

Lemma getitem_app c t t' :
  getitem c (t ++ t') = match getitem c t with Some s => Some s | None => getitem c t' end.
Proof. induction t as [|[c0 s0] t IH]; simpl; [done|]. by case_decide. Qed.

Lemma getitem_setitem c s t : getitem c (setitem c s t) = Some s.
Proof.
  unfold setitem. case_bool_decide as Hin.
  - unfold columns in Hin. induction t as [|[c0 s0] t IH]; simpl in *.
    + by apply elem_of_nil in Hin.
    + destruct (decide (c0 = c)) as [->|Hne]; simpl.
      * by rewrite decide_True.
      * rewrite decide_False by done. apply IH. set_solver.
  - rewrite getitem_app. apply getitem_None in Hin. rewrite Hin. simpl.
    by rewrite decide_True.
Qed.

Lemma getitem_setitem_ne c c' s t : c ≠ c' → getitem c' (setitem c s t) = getitem c' t.
Proof.
  intros Hne. unfold setitem. case_bool_decide as Hin.
  - clear Hin. induction t as [|[c0 s0] t IH]; simpl; [done|].
    destruct (decide (c0 = c)) as [->|Hne']; simpl.
    + by rewrite !decide_False.
    + case_decide; [done|]. apply IH.
  - rewrite getitem_app. destruct (getitem c' t); [done|]. simpl.
    by rewrite decide_False.
Qed.

Lemma columns_drop_columns names t :
  columns (drop_columns names t) = filter (λ c, c ∉ names) (columns t).
Proof.
  unfold columns, drop_columns. induction t as [|[c0 s0] t IH]; [done|].
  rewrite fmap_cons. cbn [fst].
  destruct (decide (c0 ∈ names)) as [Hc|Hc].
  - rewrite !filter_cons_False by (simpl; tauto). apply IH.
  - rewrite !filter_cons_True by done. rewrite fmap_cons. f_equal. apply IH.
Qed.


Lemma drop_columns_cons c names t :
  drop_columns names (drop_columns [c] t) = drop_columns (c :: names) t.
Proof.
  unfold drop_columns. induction t as [|[c0 s0] t IH]; [done|].
  rewrite !filter_cons. cbn [fst].
  destruct (decide (c0 ∉ [c])) as [H1|H1]; destruct (decide (c0 ∉ c :: names)) as [H2|H2];
    rewrite ?filter_cons; cbn [fst].
  - rewrite decide_True by set_solver. f_equal. apply IH.
  - rewrite decide_False by set_solver. apply IH.
  - set_solver.
  - apply IH.
Qed.
End Frames.

(** ** Passes over the columns of a frame *)

Section MapColumns.
Implicit Types (t : DataFrame) (s : Series) (c : string) (g : string → value → value).

Lemma columns_map_column g t c : columns (map_column g t c) = columns t.
Proof.
  unfold map_column. destruct (getitem c t) as [s|] eqn:E; [|done].
  apply columns_setitem, getitem_is_Some. eauto.
Qed.

Lemma columns_map_columns g cols t : columns (map_columns g cols t) = columns t.
Proof.
  unfold map_columns. revert t. induction cols as [|c cols IH]; intros t; simpl; [done|].
  rewrite IH. apply columns_map_column.
Qed.

Lemma getitem_map_column g t c : getitem c (map_column g t c) = apply (g c) <$> getitem c t.
Proof.
  unfold map_column. destruct (getitem c t) as [s|] eqn:E; simpl; [|done].
  apply getitem_setitem.
Qed.

Lemma getitem_map_column_ne g t c c' : c ≠ c' → getitem c' (map_column g t c) = getitem c' t.
Proof.
  intros Hne. unfold map_column. destruct (getitem c t) as [s|]; [|done].
  by apply getitem_setitem_ne.
Qed.

Lemma getitem_map_columns_other g cols t c :
  c ∉ cols → getitem c (map_columns g cols t) = getitem c t.
Proof.
  unfold map_columns. revert t. induction cols as [|c0 cols IH]; intros t Hc; simpl; [done|].
  rewrite IH by set_solver. apply getitem_map_column_ne. set_solver.
Qed.

Lemma getitem_map_columns g cols t c :
  NoDup cols → c ∈ cols →
  getitem c (map_columns g cols t) = apply (g c) <$> getitem c t.
Proof.
  unfold map_columns. revert t.
  induction cols as [|c0 cols IH]; intros t Hnd Hc; [by apply elem_of_nil in Hc|].
  apply NoDup_cons in Hnd as [Hc0 Hnd]. simpl.
  destruct (decide (c = c0)) as [->|Hne].
  - fold (map_columns g cols (map_column g t c0)).
    rewrite getitem_map_columns_other by done. apply getitem_map_column.
  - rewrite IH by set_solver. f_equal. apply getitem_map_column_ne. done.
Qed.

(** A property of cells that the cell function establishes and keeps
    holds throughout every column the pass visits. *)
Lemma map_columns_Forall g (Q : string → value → Prop) cols t c s :
  (∀ c v, Q c (g c v)) →
  c ∈ cols → getitem c (map_columns g cols t) = Some s → Forall (Q c) s.
Proof.
  intros Hg. unfold map_columns. revert t.
  induction cols as [|c0 cols IH] using rev_ind; intros t Hc Hs; [by apply elem_of_nil in Hc|].
  rewrite foldl_app in Hs. simpl in Hs.
  destruct (decide (c = c0)) as [->|Hne].
  - rewrite getitem_map_column in Hs.
    destruct (getitem c0 (foldl (map_column g) t cols)) as [s0|]; simplify_eq/=.
    apply Forall_fmap, Forall_forall. intros v _. apply Hg.
  - rewrite getitem_map_column_ne in Hs by done.
    eapply IH; [set_solver|done].
Qed.
End MapColumns.

(** ** Computations on the store *)

Section Store.
Implicit Types (h : store) (r : ref) (t : DataFrame) (c : string).

Lemma bind_returns {A B : Type} (m : Py A) (f : A → Py B) h a h' :
  m h = (inr a, h') → (m ≫= f) h = f a h'.
Proof. intros E. unfold mbind, Py_bind. by rewrite E. Qed.

Lemma bind_raises {A B : Type} (m : Py A) (f : A → Py B) h e h' :
  m h = (inl e, h') → (m ≫= f) h = (inl e, h').
Proof. intros E. unfold mbind, Py_bind. by rewrite E. Qed.

Lemma deref_returns h r t : h !! r = Some t → deref r h = (inr t, h).
Proof. intros E. unfold deref. by rewrite E. Qed.

Lemma df_copy_returns h r t : h !! r = Some t → df_copy r h = (inr (length h), h ++ [t]).
Proof. intros E. unfold df_copy. by erewrite bind_returns by by apply deref_returns. Qed.

Lemma remove_columns_returns h r t names :
  h !! r = Some t → remove_columns r names h = (inr (length h), h ++ [drop_columns names t]).
Proof. intros E. unfold remove_columns. by erewrite bind_returns by by apply deref_returns. Qed.

Lemma df_columns_returns h r t : h !! r = Some t → df_columns r h = (inr (columns t), h).
Proof. intros E. unfold df_columns. by erewrite bind_returns by by apply deref_returns. Qed.

Lemma df_getitem_returns h r t c s :
  h !! r = Some t → getitem c t = Some s → df_getitem r c h = (inr s, h).
Proof.
  intros E Hs. unfold df_getitem. erewrite bind_returns by by apply deref_returns.
  by rewrite Hs.
Qed.

Lemma df_getitem_raises h r t c :
  h !! r = Some t → getitem c t = None → df_getitem r c h = (inl (KeyError c), h).
Proof.
  intros E Hs. unfold df_getitem. erewrite bind_returns by by apply deref_returns.
  by rewrite Hs.
Qed.

Lemma df_setitem_returns h r t c s :
  h !! r = Some t → df_setitem r c s h = (inr tt, <[r := setitem c s t]> h).
Proof. intros E. unfold df_setitem. by erewrite bind_returns by by apply deref_returns. Qed.

(** The frame allocated last sits right after the old store. *)
Lemma lookup_fresh h t : (h ++ [t]) !! length h = Some t.
Proof. by rewrite lookup_app_r, Nat.sub_diag by lia. Qed.

Lemma insert_fresh h t t' : <[length h := t']> (h ++ [t]) = h ++ [t'].
Proof. rewrite insert_app_r_alt by lia. by rewrite Nat.sub_diag. Qed.

(** *** Operations that leave the existing frames alone *)

Lemma prefix_insert_fresh h h1 r t :
  h `prefix_of` h1 → (length h ≤ r)%nat → h `prefix_of` <[r := t]> h1.
Proof.
  intros [k ->] Hr. exists (<[r - length h := t]> k).
  by rewrite insert_app_r_alt.
Qed.

Lemma for_each_preserves {A : Type} (I : store → Prop) (body : A → Py unit) l h :
  I h → (∀ x h1, x ∈ l → I h1 → I (body x h1).2) → I (for_each l body h).2.
Proof.
  revert h. induction l as [|x l IH]; intros h Hh Hbody; simpl; [done|].
  unfold mbind, Py_bind.
  pose proof (Hbody x h ltac:(left) Hh) as Hx.
  destruct (body x h) as [[e|[]] h1]; simpl in *; [done|].
  apply IH; [done|]. intros y h2 Hy. apply Hbody. by right.
Qed.

Lemma for_fold_preserves {A S : Type} (I : store → Prop) (body : S → A → Py S) l s h :
  I h → (∀ s x h1, x ∈ l → I h1 → I (body s x h1).2) → I (for_fold l s body h).2.
Proof.
  revert s h. induction l as [|x l IH]; intros s h Hh Hbody; simpl; [done|].
  unfold mbind, Py_bind.
  pose proof (Hbody s x h ltac:(left) Hh) as Hx.
  destruct (body s x h) as [[e|s'] h1]; simpl in *; [done|].
  apply IH; [done|]. intros s2 y h2 Hy. apply Hbody. by right.
Qed.

Lemma df_copy_extends r h : h `prefix_of` (df_copy r h).2.
Proof.
  unfold df_copy, mbind, Py_bind, deref, alloc.
  destruct (h !! r); simpl; [by apply prefix_app_r|done].
Qed.

Lemma df_copy_fresh r h r' h' : df_copy r h = (inr r', h') → r' = length h.
Proof.
  unfold df_copy, mbind, Py_bind, deref, alloc. destruct (h !! r); by intros [= <- _].
Qed.

Lemma remove_columns_extends r names h : h `prefix_of` (remove_columns r names h).2.
Proof.
  unfold remove_columns, mbind, Py_bind, deref, alloc.
  destruct (h !! r); simpl; [by apply prefix_app_r|done].
Qed.

Lemma df_getitem_store r c h : (df_getitem r c h).2 = h.
Proof.
  unfold df_getitem, mbind, Py_bind, deref.
  destruct (h !! r) as [t|]; [|done]. by destruct (getitem c t).
Qed.

Lemma df_columns_store r h : (df_columns r h).2 = h.
Proof. unfold df_columns, mbind, Py_bind, deref. by destruct (h !! r). Qed.

Lemma dict_getitem_store (d : gmap string string) k h : (dict_getitem d k h).2 = h.
Proof. unfold dict_getitem. by destruct (d !! k). Qed.

Lemma df_setitem_extends h0 r c s h :
  h0 `prefix_of` h → (length h0 ≤ r)%nat → h0 `prefix_of` (df_setitem r c s h).2.
Proof.
  intros Hp Hr. unfold df_setitem, mbind, Py_bind, deref, assign.
  destruct (h !! r); simpl; [by apply prefix_insert_fresh|done].
Qed.
End Store.

(** ** The methods of the formatter *)

Section Fit.
Implicit Types (metadata : Metadata) (self : DatetimeFormatter).

Lemma fit_loop_filter (formats : gmap string string) (l a b : list string) :
  fit_loop formats l a b
  = (a ++ filter (λ c, c ∈ dom formats) l, b ++ filter (λ c, c ∉ dom formats) l).
Proof.
  revert a b. induction l as [|c l IH]; intros a b; simpl.
  - by rewrite !app_nil_r.
  - case_bool_decide as Hc; rewrite IH.
    + rewrite filter_cons_True, filter_cons_False by tauto. by rewrite <- app_assoc.
    + rewrite filter_cons_False, filter_cons_True by done. by rewrite <- app_assoc.
Qed.

Lemma fit_datetime_columns self metadata :
  datetime_columns (fit self metadata).1
  = filter (λ c, c ∈ dom (meta_datetime_format metadata)) (meta_datetime_columns metadata).
Proof. unfold fit. by rewrite fit_loop_filter. Qed.

Lemma fit_dead_columns self metadata :
  dead_columns (fit self metadata).1
  = filter (λ c, c ∉ dom (meta_datetime_format metadata)) (meta_datetime_columns metadata).
Proof. unfold fit. by rewrite fit_loop_filter. Qed.

Lemma fit_datetime_formats self metadata :
  datetime_formats (fit self metadata).1 = meta_datetime_format metadata.
Proof. unfold fit. by rewrite fit_loop_filter. Qed.

Lemma fit_calls self metadata :
  (fit self metadata).2
  = (if bool_decide ((list_to_set (datetime_columns (fit self metadata).1) : gset string)
                       ∖ list_to_set (discrete_columns metadata) = ∅)
     then [change_column_type (datetime_columns (fit self metadata).1) "discrete" "datetime"]
     else [])
    ++ [remove_column (dead_columns (fit self metadata).1)].
Proof. unfold fit. by rewrite fit_loop_filter. Qed.

(** Every usable column of a fitted state has a format and is not dead. *)
Lemma fit_usable self metadata c :
  c ∈ datetime_columns (fit self metadata).1 →
  is_Some (datetime_formats (fit self metadata).1 !! c)
  ∧ c ∉ dead_columns (fit self metadata).1.
Proof.
  rewrite fit_datetime_columns, fit_dead_columns, fit_datetime_formats.
  intros [Hc _]%list_elem_of_filter. split.
  - by apply elem_of_dom.
  - intros [Hc' _]%list_elem_of_filter. done.
Qed.

Lemma fit_usable_NoDup self metadata :
  NoDup (meta_datetime_columns metadata) → NoDup (datetime_columns (fit self metadata).1).
Proof. rewrite fit_datetime_columns. apply NoDup_filter. Qed.
End Fit.

Section Methods.
Context `{Platform}.
Implicit Types (h : store) (r : ref) (t : DataFrame) (c : string)
  (self : DatetimeFormatter) (fmts : gmap string string).

Lemma drop_columns_nil t : drop_columns [] t = t.
Proof.
  unfold drop_columns. induction t as [|e t IH]; [done|].
  rewrite filter_cons_True by apply not_elem_of_nil. by rewrite IH.
Qed.

Lemma convert_datetime_columns_returns fmts cols r h t :
  h !! r = Some t →
  (∀ c, c ∈ cols → c ∈ columns t ∧ is_Some (fmts !! c)) →
  convert_datetime_columns cols fmts r h
  = (inr (length h), h ++ [map_columns (forward fmts) cols t]).
Proof.
  intros Hr Hcols. unfold convert_datetime_columns.
  erewrite bind_returns by by apply df_copy_returns.
  set (body := λ column : string, _).
  assert (∀ l t1, columns t1 = columns t → (∀ c, c ∈ l → c ∈ cols) →
            for_each l body (h ++ [t1])
            = (inr tt, h ++ [map_columns (forward fmts) l t1])) as Hloop.
  { induction l as [|c l IH]; intros t1 Ht1 Hl; [done|]. simpl.
    destruct (Hcols c) as [Hc [f Hf]]; [apply Hl; left|].
    rewrite <- Ht1 in Hc. apply getitem_is_Some in Hc as [s Hs].
    assert (body c (h ++ [t1]) = (inr tt, h ++ [map_column (forward fmts) t1 c])) as Hbody.
    { unfold body.
      erewrite bind_returns by (eapply df_getitem_returns; [apply lookup_fresh|done]).
      unfold dict_getitem. rewrite Hf. erewrite bind_returns by reflexivity.
      erewrite df_setitem_returns by apply lookup_fresh. rewrite insert_fresh.
      unfold map_column, forward. by rewrite Hs, Hf. }
    erewrite bind_returns by exact Hbody.
    apply IH; [by rewrite columns_map_column|]. intros c' Hc'. apply Hl. by right. }
  erewrite bind_returns by (by apply Hloop). done.
Qed.

Lemma convert_timestamp_to_datetime_returns fmts cols r h t :
  h !! r = Some t →
  (∀ c, c ∈ cols → is_Some (fmts !! c)) →
  convert_timestamp_to_datetime cols fmts r h
  = (inr (length h), h ++ [map_columns (backward fmts) cols t]).
Proof.
  intros Hr Hcols. unfold convert_timestamp_to_datetime.
  erewrite bind_returns by by apply df_copy_returns.
  set (body := λ column : string, _).
  assert (∀ l t1, (∀ c, c ∈ l → c ∈ cols) →
            for_each l body (h ++ [t1])
            = (inr tt, h ++ [map_columns (backward fmts) l t1])) as Hloop.
  { induction l as [|c l IH]; intros t1 Hl; [done|]. simpl.
    destruct (Hcols c) as [f Hf]; [apply Hl; left|].
    assert (body c (h ++ [t1]) = (inr tt, h ++ [map_column (backward fmts) t1 c])) as Hbody.
    { unfold body.
      erewrite bind_returns by (apply df_columns_returns, lookup_fresh).
      unfold map_column. case_bool_decide as Hc.
      - apply getitem_is_Some in Hc as [s Hs]. rewrite Hs.
        erewrite bind_returns by (eapply df_getitem_returns; [apply lookup_fresh|done]).
        unfold dict_getitem. rewrite Hf. erewrite bind_returns by reflexivity.
        erewrite df_setitem_returns by apply lookup_fresh. rewrite insert_fresh.
        unfold backward. by rewrite Hf.
      - apply getitem_None in Hc. by rewrite Hc. }
    erewrite bind_returns by exact Hbody.
    apply IH. intros c' Hc'. apply Hl. by right. }
  erewrite bind_returns by (by apply Hloop). done.
Qed.

Lemma remove_dead_returns (dead : list string) r h t :
  h !! r = Some t →
  ∃ r1 k, for_fold dead r (λ raw_data each_col, remove_columns raw_data [each_col]) h
          = (inr r1, h ++ k)
          ∧ (h ++ k) !! r1 = Some (drop_columns dead t).
Proof.
  revert r h t. induction dead as [|c dead IH]; intros r h t Hr.
  - exists r, []. rewrite app_nil_r, drop_columns_nil. done.
  - simpl. erewrite bind_returns by by apply remove_columns_returns.
    destruct (IH (length h) (h ++ [drop_columns [c] t]) (drop_columns [c] t)) as (r1 & k & E & Hr1);
      [apply lookup_fresh|].
    exists r1, ([drop_columns [c] t] ++ k). rewrite app_assoc, E, Hr1, drop_columns_cons. done.
Qed.


Lemma reverse_convert_returns self r h t :
  datetime_columns self ≠ [] →
  h !! r = Some t →
  (∀ c, c ∈ datetime_columns self → is_Some (datetime_formats self !! c)) →
  reverse_convert self r h
  = (inr (length h),
     h ++ [map_columns (backward (datetime_formats self)) (datetime_columns self) t]).
Proof.
  intros Hne Hr Hcols. unfold reverse_convert.
  destruct (datetime_columns self) as [|c0 cols] eqn:Ecols; [done|]. cbn [length Nat.eqb].
  by apply convert_timestamp_to_datetime_returns.
Qed.
End Methods.

(** ** What the methods do to the store *)

Section Extension.
Context `{Platform}.
Implicit Types (h : store) (r : ref) (t : DataFrame) (c : string)
  (self : DatetimeFormatter) (fmts : gmap string string).

Lemma convert_datetime_columns_extends fmts cols r h :
  h `prefix_of` (convert_datetime_columns cols fmts r h).2.
Proof.
  unfold convert_datetime_columns, mbind, Py_bind.
  pose proof (df_copy_extends r h) as Hcopy.
  destruct (df_copy r h) as [[e|r1] h1] eqn:Ecopy; [done|].
  apply df_copy_fresh in Ecopy as ->.
  match goal with |- context [for_each cols ?b h1] => set (body := b) end.
  assert (h `prefix_of` (for_each cols body h1).2) as Hloop.
  { apply for_each_preserves; [done|]. intros c h2 _ Hh2. unfold body, mbind, Py_bind.
    pose proof (df_getitem_store (length h) c h2) as Hget.
    destruct (df_getitem (length h) c h2) as [[e|s] h3]; simpl in Hget; subst h3; [done|].
    pose proof (dict_getitem_store fmts c h2) as Hdict.
    destruct (dict_getitem fmts c h2) as [[e|f] h3]; simpl in Hdict; subst h3; [done|].
    by apply df_setitem_extends. }
  by destruct (for_each cols body h1) as [[e|[]] h2].
Qed.

Lemma convert_datetime_columns_fresh fmts cols r h r' h' :
  convert_datetime_columns cols fmts r h = (inr r', h') → r' = length h.
Proof.
  unfold convert_datetime_columns, mbind, Py_bind.
  destruct (df_copy r h) as [[e|r1] h1] eqn:Ecopy; [done|].
  apply df_copy_fresh in Ecopy as ->.
  match goal with
  | |- context [for_each cols ?b h1] => destruct (for_each cols b h1) as [[e|[]] h2]
  end; [done|].
  unfold mret, Py_ret. by intros [= <- _].
Qed.

Lemma convert_timestamp_to_datetime_extends fmts cols r h :
  h `prefix_of` (convert_timestamp_to_datetime cols fmts r h).2.
Proof.
  unfold convert_timestamp_to_datetime, mbind, Py_bind.
  pose proof (df_copy_extends r h) as Hcopy.
  destruct (df_copy r h) as [[e|r1] h1] eqn:Ecopy; [done|].
  apply df_copy_fresh in Ecopy as ->.
  match goal with |- context [for_each cols ?b h1] => set (body := b) end.
  assert (h `prefix_of` (for_each cols body h1).2) as Hloop.
  { apply for_each_preserves; [done|]. intros c h2 _ Hh2. unfold body, mbind, Py_bind.
    pose proof (df_columns_store (length h) h2) as Hcols.
    destruct (df_columns (length h) h2) as [[e|names] h3]; simpl in Hcols; subst h3; [done|].
    case_bool_decide; [|done].
    pose proof (df_getitem_store (length h) c h2) as Hget.
    destruct (df_getitem (length h) c h2) as [[e|s] h3]; simpl in Hget; subst h3; [done|].
    pose proof (dict_getitem_store fmts c h2) as Hdict.
    destruct (dict_getitem fmts c h2) as [[e|f] h3]; simpl in Hdict; subst h3; [done|].
    by apply df_setitem_extends. }
  by destruct (for_each cols body h1) as [[e|[]] h2].
Qed.

Lemma convert_timestamp_to_datetime_fresh fmts cols r h r' h' :
  convert_timestamp_to_datetime cols fmts r h = (inr r', h') → r' = length h.
Proof.
  unfold convert_timestamp_to_datetime, mbind, Py_bind.
  destruct (df_copy r h) as [[e|r1] h1] eqn:Ecopy; [done|].
  apply df_copy_fresh in Ecopy as ->.
  match goal with
  | |- context [for_each cols ?b h1] => destruct (for_each cols b h1) as [[e|[]] h2]
  end; [done|].
  unfold mret, Py_ret. by intros [= <- _].
Qed.

Lemma remove_dead_extends (dead : list string) r h :
  h `prefix_of`
    (for_fold dead r (λ raw_data each_col, remove_columns raw_data [each_col]) h).2.
Proof.
  apply (for_fold_preserves (λ h1, h `prefix_of` h1)); [done|].
  intros r1 c h1 _ Hh1. etrans; [done|]. apply remove_columns_extends.
Qed.

Lemma convert_extends self r h : h `prefix_of` (convert self r h).2.
Proof.
  unfold convert. destruct (length (datetime_columns self) =? 0)%nat; [done|].
  unfold mbind, Py_bind. pose proof (remove_dead_extends (dead_columns self) r h) as Hdead.
  destruct (for_fold _ _ _ h) as [[e|r1] h1]; [done|]. simpl in Hdead.
  etrans; [done|]. apply convert_datetime_columns_extends.
Qed.

Lemma convert_fresh self r h r' h' :
  datetime_columns self ≠ [] → convert self r h = (inr r', h') → h !! r' = None.
Proof.
  intros Hne. unfold convert.
  destruct (datetime_columns self) as [|c0 cols] eqn:Ecols; [done|]. cbn [length Nat.eqb].
  unfold mbind, Py_bind. pose proof (remove_dead_extends (dead_columns self) r h) as Hdead.
  destruct (for_fold _ _ _ h) as [[e|r1] h1]; [done|]. simpl in Hdead.
  intros ->%convert_datetime_columns_fresh.
  apply lookup_ge_None. by apply prefix_length.
Qed.

Lemma reverse_convert_extends self r h : h `prefix_of` (reverse_convert self r h).2.
Proof.
  unfold reverse_convert. destruct (length (datetime_columns self) =? 0)%nat; [done|].
  apply convert_timestamp_to_datetime_extends.
Qed.

Lemma reverse_convert_fresh self r h r' h' :
  datetime_columns self ≠ [] → reverse_convert self r h = (inr r', h') → h !! r' = None.
Proof.
  intros Hne. unfold reverse_convert.
  destruct (datetime_columns self) as [|c0 cols] eqn:Ecols; [done|]. cbn [length Nat.eqb].
  intros ->%convert_timestamp_to_datetime_fresh. by apply lookup_ge_None.
Qed.

Lemma convert_no_columns self r h :
  datetime_columns self = [] → convert self r h = (inr r, h).
Proof. intros E. unfold convert. by rewrite E. Qed.

Lemma reverse_convert_no_columns self r h :
  datetime_columns self = [] → reverse_convert self r h = (inr r, h).
Proof. intros E. unfold reverse_convert. by rewrite E. Qed.
End Extension.

(** ** The cell functions *)

Section CellFacts.
Context `{Platform}.



Lemma in_range_inside (x : number) : inside_range x → in_range (Num x) = Some true.
Proof.
  unfold in_range. destruct x as [n|q|neg]; simpl; [| |done].
  - intros [H0 H1]. f_equal. apply andb_true_intro. split; by apply Z.leb_le.
  - intros [H0 H1]. f_equal. apply andb_true_intro. split; by apply Qle_bool_iff.
Qed.

Lemma in_range_true_inside (x : number) : in_range (Num x) = Some true → inside_range x.
Proof.
  unfold in_range. intros [= [H0 H1]%andb_prop]. destruct x as [n|q|neg]; simpl in *.
  - split; by apply Z.leb_le.
  - split; by apply Qle_bool_iff.
  - destruct neg; discriminate.
Qed.

Lemma in_range_outside (x : number) : outside_range x → in_range (Num x) = Some false.
Proof.
  unfold in_range. destruct x as [n|q|neg]; simpl.
  - intros [Hlt|Hlt]; f_equal; apply andb_false_iff; [left|right]; apply Z.leb_gt; lia.
  - intros [Hlt|Hlt]; f_equal; apply andb_false_iff; [left|right];
      apply not_true_is_false; intros Hle%Qle_bool_iff; by apply Qlt_not_le in Hlt.
  - intros _. by destruct neg.
Qed.

Lemma column_timestamp_formatter_inside (x : number) (f : string) :
  inside_range x →
  column_timestamp_formatter (Num x) f
  = default NO_DATETIME (d ← datetime_fromtimestamp (Num x); strftime d f).
Proof.
  intros Hx. unfold column_timestamp_formatter, column_timestamp_formatter_try.
  by rewrite in_range_inside.
Qed.

Lemma column_timestamp_formatter_outside (x : number) (f : string) :
  outside_range x → column_timestamp_formatter (Num x) f = NO_DATETIME.
Proof.
  intros Hx. unfold column_timestamp_formatter, column_timestamp_formatter_try.
  by rewrite in_range_outside.
Qed.

(** Whatever the cell, the result is the sentinel or a rendering. *)
Lemma column_timestamp_formatter_cases (v : value) (f : string) :
  column_timestamp_formatter v f = NO_DATETIME
  ∨ ∃ d, strftime d f = Some (column_timestamp_formatter v f).
Proof.
  unfold column_timestamp_formatter, column_timestamp_formatter_try.
  destruct (isna v); [by left|].
  destruct (in_range v) as [[]|]; simpl; [|by left..].
  destruct (datetime_fromtimestamp v) as [d|]; simpl; [|by left].
  destruct (strftime d f) as [s|] eqn:E; simpl; [|by left].
  right. by exists d.
Qed.
End CellFacts.

(** ** The methods after [fit] *)

Section Fitted.
Context `{Platform}.
Implicit Types (h : store) (r : ref) (t : DataFrame) (c : string) (metadata : Metadata).


(** [reverse_convert] after [fit], when some column is usable. *)
Lemma fitted_reverse_convert metadata h r t :
  datetime_columns (fitted_with metadata) ≠ [] →
  h !! r = Some t →
  ∃ t',
    reverse_convert (fitted_with metadata) r h = (inr (length h), h ++ [t'])
    ∧ columns t' = columns t
    ∧ (NoDup (meta_datetime_columns metadata) →
       ∀ c f, c ∈ datetime_columns (fitted_with metadata) →
              datetime_formats (fitted_with metadata) !! c = Some f →
              getitem c t'
              = apply (λ v, Str (column_timestamp_formatter v f)) <$> getitem c t)
    ∧ (∀ c f s, c ∈ datetime_columns (fitted_with metadata) →
                datetime_formats (fitted_with metadata) !! c = Some f →
                getitem c t' = Some s →
                Forall (λ w, w = Str NO_DATETIME
                             ∨ ∃ d rendering, strftime d f = Some rendering
                                              ∧ w = Str rendering) s).
Proof.
  intros Hne Hr. unfold fitted_with in *.
  pose proof (reverse_convert_returns (fit init metadata).1 r h t Hne Hr) as E.
  exists (map_columns (backward (datetime_formats (fit init metadata).1))
            (datetime_columns (fit init metadata).1) t).
  split; [|split; [|split]].
  - apply E. intros c Hc. by apply fit_usable.
  - apply columns_map_columns.
  - intros Hnd c f Hc Hf.
    rewrite getitem_map_columns by (by apply fit_usable_NoDup || done).
    unfold backward. by rewrite Hf.
  - intros c f s Hc Hf Hs.
    pose (Q := λ (c : string) (w : value),
            ∀ f, datetime_formats (fit init metadata).1 !! c = Some f →
                 w = Str NO_DATETIME
                 ∨ ∃ d rendering, strftime d f = Some rendering ∧ w = Str rendering).
    assert (Forall (Q c) s) as HQ.
    { eapply map_columns_Forall; [|exact Hc|exact Hs].
      intros c' v f' Hf'. unfold backward. rewrite Hf'.
      destruct (column_timestamp_formatter_cases v f') as [->|[d Hd]]; [by left|].
      right. eauto. }
    eapply Forall_impl; [exact HQ|]. intros w Hw. by apply Hw.
Qed.

Lemma cell_fmap (g : value → value) t t' c (row : nat) v :
  getitem c t' = apply g <$> getitem c t →
  cell t c row = Some v → cell t' c row = Some (g v).
Proof.
  unfold cell. intros ->. destruct (getitem c t) as [s|]; simpl; [|done].
  intros Hv. unfold apply. by rewrite list_lookup_fmap, Hv.
Qed.
End Fitted.

(** ** A usable column that the frame lacks *)

Section Absent.
Context `{Platform}.
Implicit Types (h : store) (r : ref) (t : DataFrame) (c : string) (metadata : Metadata).

(** [convert_datetime_columns] raises [KeyError] at the first column of
    its list that the frame lacks. *)
Lemma convert_datetime_columns_raises (fmts : gmap string string) cols r h t :
  h !! r = Some t →
  (∀ c, c ∈ cols → is_Some (fmts !! c)) →
  (∃ c, c ∈ cols ∧ (c ∉ columns t)) →
  ∃ c h', c ∈ cols ∧ (c ∉ columns t)
          ∧ convert_datetime_columns cols fmts r h = (inl (KeyError c), h').
Proof.
  intros Hr Hfmts Habsent. unfold convert_datetime_columns.
  erewrite bind_returns by by apply df_copy_returns.
  match goal with |- context [for_each cols ?b] => set (body := b) end.
  assert (∀ l t1, columns t1 = columns t → (∀ c, c ∈ l → c ∈ cols) →
            (∃ c, c ∈ l ∧ (c ∉ columns t)) →
            ∃ c h', c ∈ l ∧ (c ∉ columns t)
                    ∧ for_each l body (h ++ [t1]) = (inl (KeyError c), h')) as Hloop.
  { induction l as [|c l IH]; intros t1 Ht1 Hl [c' [Hc' Hno]]; [by apply elem_of_nil in Hc'|].
    simpl. destruct (decide (c ∈ columns t)) as [Hc|Hc].
    - destruct (Hfmts c) as [f Hf]; [apply Hl; left|].
      rewrite <- Ht1 in Hc. apply getitem_is_Some in Hc as [s Hs].
      assert (body c (h ++ [t1]) = (inr tt, h ++ [map_column (forward fmts) t1 c])) as Hbody.
      { unfold body.
        erewrite bind_returns by (eapply df_getitem_returns; [apply lookup_fresh|done]).
        unfold dict_getitem. rewrite Hf. erewrite bind_returns by reflexivity.
        erewrite df_setitem_returns by apply lookup_fresh. rewrite insert_fresh.
        unfold map_column, forward. by rewrite Hs, Hf. }
      erewrite bind_returns by exact Hbody.
      destruct (IH (map_column (forward fmts) t1 c)) as (c1 & h1 & Hc1 & Hno1 & E).
      + by rewrite columns_map_column.
      + intros c1 Hc1. apply Hl. by right.
      + exists c'. split; [|done]. apply elem_of_cons in Hc' as [->|Hc']; [|done].
        exfalso. apply Hno. rewrite <- Ht1. apply getitem_is_Some. eauto.
      + exists c1, h1. split; [by right|]. done.
    - exists c, (h ++ [t1]). split; [left|]. split; [done|].
      eapply bind_raises. unfold body. eapply bind_raises.
      eapply df_getitem_raises; [apply lookup_fresh|].
      apply getitem_None. by rewrite Ht1. }
  destruct (Hloop cols t) as (c & h' & Hc & Hno & E); [done|done|done|].
  exists c, h'. split; [done|]. split; [done|]. by eapply bind_raises.
Qed.

(** After [fit], [convert] raises [KeyError] on a frame that lacks a
    usable column. *)
Lemma convert_absent_column_raises metadata h r t :
  h !! r = Some t →
  (∃ c, c ∈ datetime_columns (fitted_with metadata) ∧ (c ∉ columns t)) →
  ∃ c h', c ∈ datetime_columns (fitted_with metadata) ∧ (c ∉ columns t)
          ∧ convert (fitted_with metadata) r h = (inl (KeyError c), h').
Proof.
  intros Hr [c0 [Hc0 Hno0]]. unfold convert.
  destruct (datetime_columns (fitted_with metadata)) as [|c1 cols] eqn:Ecols;
    [by apply elem_of_nil in Hc0|]. cbn [length Nat.eqb].
  destruct (remove_dead_returns (dead_columns (fitted_with metadata)) r h t Hr)
    as (r1 & k & E & Hr1).
  erewrite bind_returns by exact E. rewrite <- Ecols in *.
  destruct (convert_datetime_columns_raises (datetime_formats (fitted_with metadata))
              (datetime_columns (fitted_with metadata)) r1 (h ++ k)
              (drop_columns (dead_columns (fitted_with metadata)) t) Hr1)
    as (c & h' & Hc & Hno & E').
  - intros c Hc. by apply fit_usable.
  - exists c0. split; [done|]. rewrite columns_drop_columns.
    intros [_ Hin]%list_elem_of_filter. done.
  - exists c, h'. split; [done|]. split; [|done].
    intros Hin. apply Hno. rewrite columns_drop_columns. apply list_elem_of_filter.
    split; [|done]. by apply fit_usable.
Qed.
End Absent.

(** ** The properties of the specification *)


(** C2: after [fit], [reverse_convert] returns for every frame, and in
    its result every cell of a usable column that the input has is a
    string: the sentinel ["No Datetime"] or a rendering under the format
    of the column.  The string is [column_timestamp_formatter] of the
    input cell. *)
Theorem reverse_convert_total `{Platform} (metadata : Metadata) (h : store)
    (processed_data : ref) (t : DataFrame) :
  h !! processed_data = Some t →
  ∃ r' h' t',
    reverse_convert (fitted_with metadata) processed_data h = (inr r', h')
    ∧ h' !! r' = Some t'
    ∧ ∀ column, column ∈ datetime_columns (fitted_with metadata) → column ∈ columns t →
        ∃ f s, datetime_formats (fitted_with metadata) !! column = Some f
               ∧ getitem column t' = Some s
               ∧ Forall (λ w, w = Str NO_DATETIME
                              ∨ ∃ d rendering, strftime d f = Some rendering
                                               ∧ w = Str rendering) s
               ∧ (NoDup (meta_datetime_columns metadata) →
                  ∀ row v, cell t column row = Some v →
                           cell t' column row = Some (Str (column_timestamp_formatter v f))).
Proof.
  intros Hr.
  destruct (decide (datetime_columns (fitted_with metadata) = [])) as [E|Hne].
  - exists processed_data, h, t. split; [by apply reverse_convert_no_columns|].
    split; [done|]. intros column Hc. rewrite E in Hc. by apply elem_of_nil in Hc.
  - destruct (fitted_reverse_convert metadata h processed_data t Hne Hr)
      as (t' & E & Hcolumns & Hbwd & Hcells).
    exists (length h), (h ++ [t']), t'. split; [done|]. split; [apply lookup_fresh|].
    intros column Hc Hin.
    destruct (fit_usable init metadata column Hc) as [[f Hf] _].
    rewrite <- Hcolumns in Hin. apply getitem_is_Some in Hin as [s Hs].
    exists f, s. split; [done|]. split; [done|]. split; [by eapply Hcells|].
    intros Hnd row v Hcell.
    by eapply (cell_fmap (λ v, Str (column_timestamp_formatter v f))); [apply Hbwd|].
Qed.


(** C4 (amended): for a numeric cell, every number from 0 to
    253402300799, both bounds included, passes the range test of
    [column_timestamp_formatter]: the result is the rendering when
    [fromtimestamp] and [strftime] return and the sentinel when one of
    them raises, so it is not the sentinel exactly when there is a
    rendering other than the text ["No Datetime"].  Every number outside,
    -1 and 253402300800 included, gives the sentinel. *)
Theorem timestamp_range `{Platform} (timestamp_format : string) :
  (∀ x,
     inside_range x →
     (∀ d rendering,
        datetime_fromtimestamp (Num x) = Some d →
        strftime d timestamp_format = Some rendering →
        column_timestamp_formatter (Num x) timestamp_format = rendering)
     ∧ (datetime_fromtimestamp (Num x) = None →
        column_timestamp_formatter (Num x) timestamp_format = "No Datetime")
     ∧ (∀ d, datetime_fromtimestamp (Num x) = Some d →
             strftime d timestamp_format = None →
             column_timestamp_formatter (Num x) timestamp_format = "No Datetime")
     ∧ (column_timestamp_formatter (Num x) timestamp_format ≠ "No Datetime"
        ↔ ∃ d rendering,
            datetime_fromtimestamp (Num x) = Some d
            ∧ strftime d timestamp_format = Some rendering
            ∧ rendering ≠ "No Datetime"))
  ∧ inside_range (Int 0)
  ∧ inside_range (Int 253402300799)
  ∧ (∀ d rendering,
       fromtimestamp (inject_Z 0) = Some d →
       strftime d timestamp_format = Some rendering →
       column_timestamp_formatter (Num (Int 0)) timestamp_format = rendering)
  ∧ (∀ d rendering,
       fromtimestamp (inject_Z 253402300799) = Some d →
       strftime d timestamp_format = Some rendering →
       column_timestamp_formatter (Num (Int 253402300799)) timestamp_format = rendering)
  ∧ (fromtimestamp (inject_Z 253402300799) = None →
     column_timestamp_formatter (Num (Int 253402300799)) timestamp_format = "No Datetime")
  ∧ (∀ x, outside_range x →
          column_timestamp_formatter (Num x) timestamp_format = "No Datetime")
  ∧ column_timestamp_formatter (Num (Int (-1))) timestamp_format = "No Datetime"
  ∧ column_timestamp_formatter (Num (Int 253402300800)) timestamp_format = "No Datetime".
Proof.
  assert (inside_range (Int 0)) as H0 by (unfold inside_range, MAX_TIMESTAMP; lia).
  assert (inside_range (Int 253402300799)) as Hmax
    by (unfold inside_range, MAX_TIMESTAMP; lia).
  assert (∀ x d rendering,
            inside_range x →
            datetime_fromtimestamp (Num x) = Some d →
            strftime d timestamp_format = Some rendering →
            column_timestamp_formatter (Num x) timestamp_format = rendering) as Hin.
  { intros x d rendering Hx Hd Hs.
    rewrite column_timestamp_formatter_inside by done. rewrite Hd. simpl. by rewrite Hs. }
  assert (∀ x, inside_range x → datetime_fromtimestamp (Num x) = None →
               column_timestamp_formatter (Num x) timestamp_format = "No Datetime")
    as Hnone.
  { intros x Hx Hd. rewrite column_timestamp_formatter_inside by done. by rewrite Hd. }
  split; [|split; [|split; [|split; [|split; [|split; [|split; [|split]]]]]]].
  - intros x Hx. split; [intros d rendering Hd Hs; by apply (Hin x d)|].
    split; [by apply Hnone|]. split.
    + intros d Hd Hs. rewrite column_timestamp_formatter_inside by done.
      rewrite Hd. simpl. by rewrite Hs.
    + rewrite column_timestamp_formatter_inside by done.
      destruct (datetime_fromtimestamp (Num x)) as [d|]; simpl.
      * destruct (strftime d timestamp_format) as [s|] eqn:Es; simpl.
        -- split; [intros Hs; by exists d, s|].
           intros (d0 & s0 & Hd0 & Hs0 & Hs); simplify_eq; first [done|congruence].
        -- split; [intros Hs; by destruct Hs|].
           intros (d0 & s0 & Hd0 & Hs0 & _); simplify_eq; first [done|congruence].
      * split; [intros Hs; by destruct Hs|]. intros (d0 & s0 & Hd0 & _). discriminate.
  - exact H0.
  - exact Hmax.
  - intros d rendering Hd Hs. by apply (Hin (Int 0) d).
  - intros d rendering Hd Hs. by apply (Hin (Int 253402300799) d).
  - intros Hd. by apply (Hnone (Int 253402300799)).
  - intros x Hx. by apply column_timestamp_formatter_outside.
  - apply column_timestamp_formatter_outside. left. lia.
  - apply column_timestamp_formatter_outside. right. unfold MAX_TIMESTAMP. lia.
Qed.


(** C6 (amended): [fit] asks the metadata to reclassify the usable
    columns from discrete to datetime exactly when every usable column is
    in the discrete set; otherwise the only call is the removal of the
    dead columns. *)
Theorem fit_reclassifies_discrete_columns (self : DatetimeFormatter) (metadata : Metadata) :
  ((∀ c, c ∈ datetime_columns (fit self metadata).1 → c ∈ discrete_columns metadata) →
   (fit self metadata).2
   = [change_column_type (datetime_columns (fit self metadata).1) "discrete" "datetime";
      remove_column (dead_columns (fit self metadata).1)])
  ∧ (¬ (∀ c, c ∈ datetime_columns (fit self metadata).1 → c ∈ discrete_columns metadata) →
     (fit self metadata).2 = [remove_column (dead_columns (fit self metadata).1)]).
Proof.
  rewrite fit_calls.
  assert ((list_to_set (datetime_columns (fit self metadata).1) : gset string)
            ∖ list_to_set (discrete_columns metadata) = ∅
          ↔ ∀ c, c ∈ datetime_columns (fit self metadata).1 → c ∈ discrete_columns metadata)
    as Hiff.
  { split.
    - intros Hempty c Hc.
      destruct (decide (c ∈ discrete_columns metadata)) as [|Hn]; [done|].
      assert (c ∈ (list_to_set (datetime_columns (fit self metadata).1) : gset string)
                    ∖ list_to_set (discrete_columns metadata)) as Hin by set_solver.
      rewrite Hempty in Hin. set_solver.
    - intros Hall. set_solver. }
  split; intros Hall; case_bool_decide as Hd.
  - done.
  - exfalso. by apply Hd, Hiff.
  - exfalso. by apply Hall, Hiff.
  - done.
Qed.


(** C8: when [fit] leaves no usable column, [convert] and
    [reverse_convert] return the frame they are given, in a store left as
    it was. *)
Theorem no_usable_columns_identity `{Platform} (metadata : Metadata) (h : store) (data : ref) :
  datetime_columns (fitted_with metadata) = [] →
  convert (fitted_with metadata) data h = (inr data, h)
  ∧ reverse_convert (fitted_with metadata) data h = (inr data, h).
Proof.
  intros E. split; [by apply convert_no_columns|by apply reverse_convert_no_columns].
Qed.

(** C9 (amended): [convert] and [reverse_convert] leave every frame of
    the store, the input among them, as it was, whether they return or
    raise.  With a usable column the frame returned is a new object; with
    none it is the input object itself. *)
Theorem input_frame_untouched `{Platform} (self : DatetimeFormatter) (h : store) (data : ref) :
  (∀ r t, h !! r = Some t →
          (convert self data h).2 !! r = Some t
          ∧ (reverse_convert self data h).2 !! r = Some t)
  ∧ (datetime_columns self ≠ [] →
     (∀ r' h', convert self data h = (inr r', h') → h !! r' = None)
     ∧ (∀ r' h', reverse_convert self data h = (inr r', h') → h !! r' = None))
  ∧ (datetime_columns self = [] →
     convert self data h = (inr data, h) ∧ reverse_convert self data h = (inr data, h)).
Proof.
  split; [|split].
  - intros r t Hr. split.
    + by eapply prefix_lookup_Some, convert_extends.
    + by eapply prefix_lookup_Some, reverse_convert_extends.
  - intros Hne. split; intros r' h' E.
    + by eapply convert_fresh.
    + by eapply reverse_convert_fresh.
  - intros E. split; [by apply convert_no_columns|by apply reverse_convert_no_columns].
Qed.


(** ** The properties on sample data *)



(** Witness of C2 on the UTC platform: a frame of generated values. *)
Lemma reverse_convert_total_witness :
  ∃ r' h' t',
    @reverse_convert UTC.platform (fitted_with Scenario.metadata) 0 [Scenario.generated_frame]
    = (inr r', h')
    ∧ h' !! r' = Some t'
    ∧ ∀ column, column ∈ datetime_columns (fitted_with Scenario.metadata) →
                column ∈ columns Scenario.generated_frame →
        ∃ f s, datetime_formats (fitted_with Scenario.metadata) !! column = Some f
               ∧ getitem column t' = Some s
               ∧ Forall (λ w, w = Str NO_DATETIME
                              ∨ ∃ d rendering, @strftime UTC.platform d f = Some rendering
                                               ∧ w = Str rendering) s
               ∧ (NoDup (meta_datetime_columns Scenario.metadata) →
                  ∀ row v, cell Scenario.generated_frame column row = Some v →
                           cell t' column row
                           = Some (Str (@column_timestamp_formatter UTC.platform v f))).
Proof.
  apply (@reverse_convert_total UTC.platform Scenario.metadata [Scenario.generated_frame] 0
           Scenario.generated_frame).
  reflexivity.
Defined.

(** The scenario of the specification, evaluated on the UTC platform. *)
Example scenario_convert :
  @convert UTC.platform (fitted_with Scenario.metadata) 0 [Scenario.frame]
  = (inr 2,
     [Scenario.frame;
      [("date", [Str "2023-01-01"; Str "invalid"; Str "1992-05-15"]);
       ("city", [Str "Oslo"; Str "Lima"; Str "Pune"])];
      [("date", [Num (Float (1672531200000000 # 1000000)); Missing NaN;
                 Num (Float (705888000000000 # 1000000))]);
       ("city", [Str "Oslo"; Str "Lima"; Str "Pune"])]]).
Proof. vm_compute. reflexivity. Qed.

Example scenario_reverse_convert :
  (r ← @convert UTC.platform (fitted_with Scenario.metadata) 0;
   @reverse_convert UTC.platform (fitted_with Scenario.metadata) r) [Scenario.frame]
  = (inr 3,
     [Scenario.frame;
      [("date", [Str "2023-01-01"; Str "invalid"; Str "1992-05-15"]);
       ("city", [Str "Oslo"; Str "Lima"; Str "Pune"])];
      [("date", [Num (Float (1672531200000000 # 1000000)); Missing NaN;
                 Num (Float (705888000000000 # 1000000))]);
       ("city", [Str "Oslo"; Str "Lima"; Str "Pune"])];
      [("date", [Str "2023-01-01"; Str "No Datetime"; Str "1992-05-15"]);
       ("city", [Str "Oslo"; Str "Lima"; Str "Pune"])]]).
Proof. vm_compute. reflexivity. Qed.

Example generated_reverse_convert :
  @reverse_convert UTC.platform (fitted_with Scenario.metadata) 0 [Scenario.generated_frame]
  = (inr 1,
     [Scenario.generated_frame;
      [("date", [Str "2023-01-01"; Str "No Datetime"; Str "No Datetime"]);
       ("city", [Str "Oslo"; Str "Lima"; Str "Pune"])]]).
Proof. vm_compute. reflexivity. Qed.

(** C3: the frame has cells in the usable column ["date"], the usable
    column ["time"] is not in the frame, and [convert] raises [KeyError]
    to its caller. *)
Lemma convert_raises_on_absent_column :
  datetime_columns (fitted_with Scenario.two_dates) = ["date"; "time"]
  ∧ cell Scenario.only_date "date" 0 = Some (Str "2023-01-01")
  ∧ ("time" ∉ columns Scenario.only_date)
  ∧ @convert UTC.platform (fitted_with Scenario.two_dates) 0 [Scenario.only_date]
    = (inl (KeyError "time"),
       [Scenario.only_date;
        [("date", [Num (Float (1672531200000000 # 1000000)); Missing NaN;
                   Num (Float (705888000000000 # 1000000))])]]).
Proof.
  split; [vm_compute; reflexivity|]. split; [vm_compute; reflexivity|].
  split; [evaluate|]. vm_compute; reflexivity.
Qed.

(** Counterexample to C4 as stated: where local time is eight hours
    ahead of UTC, [fromtimestamp] raises at 253402300799 and the cell
    becomes the sentinel; and on the UTC platform a format that is the
    text of the sentinel renders 0 as that text. *)
Lemma boundary_sentinel_counterexample :
  @fromtimestamp East.platform (inject_Z 253402300799) = None
  ∧ @column_timestamp_formatter East.platform (Num (Int 253402300799)) "%Y-%m-%d %H:%M:%S"
    = "No Datetime"
  ∧ @column_timestamp_formatter UTC.platform (Num (Int 0)) "No Datetime" = "No Datetime".
Proof. repeat split; vm_compute; reflexivity. Qed.

(** Witness of C4 (amended): the two bounds and their neighbours on the
    UTC platform, and the upper bound east of it. *)
Lemma timestamp_range_witness :
  @column_timestamp_formatter UTC.platform (Num (Int 0)) "%Y-%m-%d %H:%M:%S"
  = "1970-01-01 00:00:00"
  ∧ @column_timestamp_formatter UTC.platform (Num (Int 253402300799)) "%Y-%m-%d %H:%M:%S"
    = "9999-12-31 23:59:59"
  ∧ @column_timestamp_formatter UTC.platform (Num (Float (1 # 2))) "%Y-%m-%d %H:%M:%S.%f"
    = "1970-01-01 00:00:00.500000"
  ∧ @column_timestamp_formatter UTC.platform (Num (Int 0)) "%Y-%m-%d %H:%M:%S"
    ≠ "No Datetime"
  ∧ @column_timestamp_formatter East.platform (Num (Int 253402300799)) "%Y-%m-%d %H:%M:%S"
    = "No Datetime"
  ∧ @column_timestamp_formatter UTC.platform (Num (Float (-1 # 2))) "%Y-%m-%d %H:%M:%S"
    = "No Datetime"
  ∧ @column_timestamp_formatter UTC.platform (Num (Int (-1))) "%Y-%m-%d %H:%M:%S"
    = "No Datetime"
  ∧ @column_timestamp_formatter UTC.platform (Num (Int 253402300800)) "%Y-%m-%d %H:%M:%S"
    = "No Datetime".
Proof.
  destruct (@timestamp_range UTC.platform "%Y-%m-%d %H:%M:%S")
    as (Hinside & Hin0 & _ & Hzero & Hmax & _ & Houtside & Hbelow & Habove).
  destruct (@timestamp_range UTC.platform "%Y-%m-%d %H:%M:%S.%f") as (Hinside' & _).
  destruct (@timestamp_range East.platform "%Y-%m-%d %H:%M:%S")
    as (_ & _ & _ & _ & _ & Hraises & _).
  split; [|split; [|split; [|split; [|split; [|split; [|split]]]]]].
  - apply (Hzero (mk_datetime 1970 1 1 0 0 0 0)); vm_compute; reflexivity.
  - apply (Hmax (mk_datetime 9999 12 31 23 59 59 0)); vm_compute; reflexivity.
  - destruct (Hinside' (Float (1 # 2))) as (Hrender & _); [split; by vm_compute|].
    apply (Hrender (mk_datetime 1970 1 1 0 0 0 500000)); vm_compute; reflexivity.
  - destruct (Hinside (Int 0) Hin0) as (_ & _ & _ & Hiff). apply Hiff.
    exists (mk_datetime 1970 1 1 0 0 0 0), "1970-01-01 00:00:00".
    split; [vm_compute; reflexivity|]. split; [vm_compute; reflexivity|]. discriminate.
  - apply Hraises. vm_compute; reflexivity.
  - apply Houtside. left. by vm_compute.
  - exact Hbelow.
  - exact Habove.
Defined.



(** Counterexample to C6 as stated: no usable column of
    [Scenario.not_discrete] is discrete and [fit] does not reclassify;
    the usable column of [Scenario.metadata] is discrete and [fit] does. *)
Lemma fit_reclassification_counterexample :
  (∀ c, c ∈ datetime_columns (fit init Scenario.not_discrete).1 →
        c ∉ discrete_columns Scenario.not_discrete)
  ∧ (fit init Scenario.not_discrete).2 = [remove_column []]
  ∧ ¬ (∀ c, c ∈ datetime_columns (fit init Scenario.metadata).1 →
            c ∉ discrete_columns Scenario.metadata)
  ∧ (fit init Scenario.metadata).2
    = [change_column_type ["date"] "discrete" "datetime"; remove_column ["seen"]].
Proof.
  split; [|split; [|split]].
  - intros c Hc. assert (c ∈ ["date"]) as ->%list_elem_of_singleton by exact Hc. evaluate.
  - vm_compute. reflexivity.
  - intros Hall. apply (Hall "date"); evaluate.
  - vm_compute. reflexivity.
Qed.

(** Witness of C6 (amended). *)
Lemma fit_reclassifies_discrete_columns_witness :
  (fit init Scenario.metadata).2
  = [change_column_type (datetime_columns (fit init Scenario.metadata).1) "discrete" "datetime";
     remove_column (dead_columns (fit init Scenario.metadata).1)]
  ∧ (fit init Scenario.not_discrete).2
    = [remove_column (dead_columns (fit init Scenario.not_discrete).1)].
Proof.
  split.
  - apply (proj1 (fit_reclassifies_discrete_columns init Scenario.metadata)).
    intros c Hc. assert (c ∈ ["date"]) as ->%list_elem_of_singleton by exact Hc. evaluate.
  - apply (proj2 (fit_reclassifies_discrete_columns init Scenario.not_discrete)).
    intros Hall. assert ("date" ∈ ["city"]) as Hin by (apply Hall; evaluate).
    apply list_elem_of_singleton in Hin. discriminate.
Defined.


(** Witness of C8: only a dead column, present in the frame. *)
Lemma no_usable_columns_identity_witness :
  @convert UTC.platform (fitted_with Scenario.unformatted) 0 [Scenario.frame]
  = (inr 0, [Scenario.frame])
  ∧ @reverse_convert UTC.platform (fitted_with Scenario.unformatted) 0 [Scenario.frame]
    = (inr 0, [Scenario.frame]).
Proof.
  apply (@no_usable_columns_identity UTC.platform Scenario.unformatted [Scenario.frame] 0).
  vm_compute. reflexivity.
Defined.

(** Counterexample to C9 as stated: without a usable column the store
    holds one frame before and after [convert] and [reverse_convert], and
    the reference returned is the one passed in: no new table is made. *)
Lemma returns_input_counterexample :
  fitted (fitted_with Scenario.unformatted) = true
  ∧ @convert UTC.platform (fitted_with Scenario.unformatted) 0 [Scenario.frame]
    = (inr 0, [Scenario.frame])
  ∧ @reverse_convert UTC.platform (fitted_with Scenario.unformatted) 0 [Scenario.frame]
    = (inr 0, [Scenario.frame]).
Proof. split; [|split]; vm_compute; reflexivity. Qed.

(** Witness of C9 (amended) on the UTC platform. *)
Lemma input_frame_untouched_witness :
  ((@convert UTC.platform (fitted_with Scenario.metadata) 0 [Scenario.frame]).2 !! 0%nat
   = Some Scenario.frame
   ∧ (@reverse_convert UTC.platform (fitted_with Scenario.metadata) 0 [Scenario.frame]).2 !! 0%nat
     = Some Scenario.frame)
  ∧ (∀ r' h', @convert UTC.platform (fitted_with Scenario.metadata) 0 [Scenario.frame]
              = (inr r', h') → [Scenario.frame] !! r' = None)
  ∧ (∀ r' h', @reverse_convert UTC.platform (fitted_with Scenario.metadata) 0 [Scenario.frame]
              = (inr r', h') → [Scenario.frame] !! r' = None).
Proof.
  destruct (@input_frame_untouched UTC.platform (fitted_with Scenario.metadata)
              [Scenario.frame] 0) as (Hkept & Hnew & _).
  split; [apply Hkept; reflexivity|].
  apply Hnew. by vm_compute.
Defined.


(** The numbers of [Scenario.numeric_frame] all come out missing. *)
Example numeric_convert :
  @convert UTC.platform (fitted_with Scenario.metadata) 0 [Scenario.numeric_frame]
  = (inr 2,
     [Scenario.numeric_frame; Scenario.numeric_frame;
      [("date", [Missing NaN; Missing NaN; Missing NaN]);
       ("city", [Str "Oslo"; Str "Lima"; Str "Pune"])]]).
Proof. vm_compute. reflexivity. Qed.

(** An integer whose digits match the format is read as a date. *)
Example digits_read_as_date :
  @datetime_formatter UTC.platform (Num (Int 20230101)) "%Y%m%d"
  = Num (Float (1672531200000000 # 1000000)).
Proof. vm_compute. reflexivity. Qed.

(** ** The reference platform on known dates *)

Example utc_epoch :
  UTC.utc_timestamp (mk_datetime 1970 1 1 0 0 0 0) = Some (0 # 1000000)
  ∧ UTC.utc_fromtimestamp (inject_Z 0) = Some (mk_datetime 1970 1 1 0 0 0 0).
Proof. split; vm_compute; reflexivity. Qed.

Example utc_last_second :
  UTC.utc_fromtimestamp (inject_Z 253402300799) = Some (mk_datetime 9999 12 31 23 59 59 0)
  ∧ UTC.utc_fromtimestamp (inject_Z 253402300800) = None.
Proof. split; vm_compute; reflexivity. Qed.

Example utc_leap_day :
  UTC.utc_strptime "2024-02-29" "%Y-%m-%d" = Some (mk_datetime 2024 2 29 0 0 0 0)
  ∧ UTC.utc_strptime "2023-02-29" "%Y-%m-%d" = None
  ∧ UTC.utc_strptime "2023-13-01" "%Y-%m-%d %H:%M:%S" = None
  ∧ UTC.utc_strptime "2023-12-02 11:45:00" "%Y-%m-%d %H:%M:%S"
    = Some (mk_datetime 2023 12 2 11 45 0 0).
Proof. repeat split; vm_compute; reflexivity. Qed.

Example utc_float_text :
  UTC.utc_float_repr (inject_Z 1672531200) = "1672531200.0"
  ∧ UTC.utc_float_repr (1672531200123456 # 1000000) = "1672531200.123456"
  ∧ UTC.utc_float_repr (-5 # 2) = "-2.5".
Proof. repeat split; vm_compute; reflexivity. Qed.

(** * Further properties of the formatter *)

(** ** Rows, cell cases and the two methods in sequence *)

Section Shape.
Implicit Types (t : DataFrame) (s : Series) (c : string) (g : string → value → value).

(** A pass keeps the number of rows of every column. *)
Lemma map_columns_length g cols t c :
  length <$> getitem c (map_columns g cols t) = length <$> getitem c t.
Proof.
  unfold map_columns. revert t. induction cols as [|c0 cols IH]; intros t; [done|].
  simpl. rewrite IH. destruct (decide (c0 = c)) as [->|Hne].
  - rewrite getitem_map_column. destruct (getitem c t) as [s|]; simpl; [|done].
    unfold apply. by rewrite length_fmap.
  - by rewrite getitem_map_column_ne.
Qed.

Lemma getitem_length_Some (t t' : DataFrame) c s :
  length <$> getitem c t' = length <$> getitem c t →
  getitem c t = Some s →
  ∃ s', getitem c t' = Some s' ∧ length s' = length s.
Proof.
  intros E Hs. rewrite Hs in E. destruct (getitem c t') as [s'|]; simplify_eq/=. eauto.
Qed.
End Shape.

Section CellCases.
Context `{Platform}.



Lemma column_timestamp_formatter_text (text f : string) :
  column_timestamp_formatter (Str text) f = NO_DATETIME.
Proof. done. Qed.
End CellCases.

Section RoundTrip.
Context `{Platform}.
Implicit Types (h : store) (r : ref) (t : DataFrame) (c : string) (metadata : Metadata).

End RoundTrip.

Section AbsentAt.
Context `{Platform}.
Implicit Types (h : store) (r : ref) (t : DataFrame) (c : string) (metadata : Metadata).

End AbsentAt.

Section Filters.
Context {A : Type} (P : A → Prop) `{!∀ x, Decision (P x)}.

Lemma filter_empty_iff (l : list A) : filter P l = [] ↔ ∀ x, x ∈ l → ¬ P x.
Proof.
  induction l as [|x l IH].
  - split; [intros _ y Hy; by apply elem_of_nil in Hy|done].
  - rewrite filter_cons. destruct (decide (P x)) as [Hx|Hx].
    + split; [done|]. intros Hall. destruct (Hall x); [left|done].
    + rewrite IH. split.
      * intros Hall y [->|Hy]%elem_of_cons; auto.
      * intros Hall y Hy. apply Hall. by right.
Qed.

Lemma filter_all_id (l : list A) : (∀ x, x ∈ l → P x) → filter P l = l.
Proof.
  induction l as [|x l IH]; intros Hall; [done|].
  rewrite filter_cons_True by (apply Hall; left).
  f_equal. apply IH. intros y Hy. apply Hall. by right.
Qed.
End Filters.

(** ** The properties *)

(** X1: the state [fit] leaves: the flag is set, the formats are those of
    the metadata, the two lists keep the order of the metadata's datetime
    columns, share no column and together hold each of those columns as
    often as the metadata does. *)
Theorem fit_state (self : DatetimeFormatter) (metadata : Metadata) :
  fitted (fit self metadata).1 = true
  ∧ datetime_formats (fit self metadata).1 = meta_datetime_format metadata
  ∧ datetime_columns (fit self metadata).1 `sublist_of` meta_datetime_columns metadata
  ∧ dead_columns (fit self metadata).1 `sublist_of` meta_datetime_columns metadata
  ∧ datetime_columns (fit self metadata).1 ++ dead_columns (fit self metadata).1
    ≡ₚ meta_datetime_columns metadata
  ∧ (∀ c, c ∈ datetime_columns (fit self metadata).1 →
          c ∉ dead_columns (fit self metadata).1).
Proof.
  rewrite fit_datetime_columns, fit_dead_columns, fit_datetime_formats.
  split; [unfold fit; by rewrite fit_loop_filter|]. split; [done|].
  split; [apply sublist_filter|]. split; [apply sublist_filter|].
  split; [apply filter_app_complement|].
  intros c [Hc _]%list_elem_of_filter [Hn _]%list_elem_of_filter. done.
Qed.

(** X2: the calls of [fit] on the metadata: [remove_column] with the dead
    columns is always the last call, also when no column is dead; the only
    other call there can be is one [change_column_type] of the usable
    columns, and it is made, with an empty list, when no column is
    usable. *)
Theorem fit_call_protocol (self : DatetimeFormatter) (metadata : Metadata) :
  ((fit self metadata).2 = [remove_column (dead_columns (fit self metadata).1)]
   ∨ (fit self metadata).2
     = [change_column_type (datetime_columns (fit self metadata).1) "discrete" "datetime";
        remove_column (dead_columns (fit self metadata).1)])
  ∧ (datetime_columns (fit self metadata).1 = [] →
     (fit self metadata).2
     = [change_column_type [] "discrete" "datetime";
        remove_column (dead_columns (fit self metadata).1)])
  ∧ (meta_datetime_columns metadata = [] →
     (fit self metadata).2
     = [change_column_type [] "discrete" "datetime"; remove_column []]).
Proof.
  rewrite fit_calls. split; [|split].
  - case_bool_decide; [by right|by left].
  - intros E. rewrite E. by rewrite bool_decide_eq_true_2 by set_solver.
  - intros E. rewrite fit_datetime_columns, fit_dead_columns, E.
    by rewrite bool_decide_eq_true_2 by set_solver.
Qed.

Section Provenance.
Context `{Platform}.

(** X3: [column_timestamp_formatter] gives something else than the
    sentinel only for a number from 0 to 253402300799 that the platform
    renders; text, native datetimes and missing values always give the
    sentinel. *)
Theorem rendering_only_of_numbers_in_range (each_stamp : value) (timestamp_format : string) :
  column_timestamp_formatter each_stamp timestamp_format ≠ NO_DATETIME →
  ∃ x d,
    each_stamp = Num x
    ∧ inside_range x
    ∧ datetime_fromtimestamp (Num x) = Some d
    ∧ strftime d timestamp_format
      = Some (column_timestamp_formatter each_stamp timestamp_format).
Proof.
  unfold column_timestamp_formatter, column_timestamp_formatter_try.
  assert (∀ P : Prop, NO_DATETIME ≠ NO_DATETIME → P) as Hsame
    by (intros P Hne; by destruct Hne).
  destruct each_stamp as [m|s|d0|x]; [by apply Hsame..|].
  remember (in_range (Num x)) as range eqn:Erange.
  remember (datetime_fromtimestamp (Num x)) as od eqn:Ed.
  simpl. destruct range as [[|]|]; simpl; [|by apply Hsame..].
  destruct od as [d|]; simpl; [|by apply Hsame].
  destruct (strftime d timestamp_format) as [s|] eqn:Es; simpl; [|by apply Hsame].
  intros _. exists x, d. split; [done|]. split; [|done].
  by apply in_range_true_inside.
Qed.

End Provenance.




(** X8: after [fit] with a usable column, [reverse_convert] adds exactly
    one frame to the store and returns it; it has the columns of the
    input, in their order; every column keeps its number of rows, and the
    columns that are not usable keep their cells.  A usable column that
    the input lacks is not added. *)
Theorem reverse_convert_keeps_shape `{Platform} (metadata : Metadata) (h : store)
    (processed_data : ref) (t : DataFrame) :
  datetime_columns (fitted_with metadata) ≠ [] →
  h !! processed_data = Some t →
  ∃ t',
    reverse_convert (fitted_with metadata) processed_data h = (inr (length h), h ++ [t'])
    ∧ columns t' = columns t
    ∧ (∀ column s, getitem column t = Some s →
                   ∃ s', getitem column t' = Some s' ∧ length s' = length s)
    ∧ (∀ column, column ∉ datetime_columns (fitted_with metadata) →
                 getitem column t' = getitem column t)
    ∧ (∀ column, column ∉ columns t → getitem column t' = None).
Proof.
  intros Hne Hr.
  pose proof (reverse_convert_returns (fitted_with metadata) processed_data h t Hne Hr)
    as E.
  eexists. split; [apply E; intros c Hc; by apply fit_usable|].
  split; [apply columns_map_columns|]. split; [|split].
  - intros column s Hs. eapply getitem_length_Some; [|exact Hs].
    by rewrite map_columns_length.
  - intros column Hc. by apply getitem_map_columns_other.
  - intros column Hc. apply getitem_None. by rewrite columns_map_columns.
Qed.





(** X13: [reverse_convert] applied to its own result turns every cell of
    the usable columns into the sentinel: the second pass meets strings,
    not numbers. *)
Theorem reverse_convert_twice `{Platform} (metadata : Metadata) (h : store)
    (processed_data : ref) (t : DataFrame) :
  NoDup (meta_datetime_columns metadata) →
  h !! processed_data = Some t →
  ∃ r1 h1 r2 h2 t2,
    reverse_convert (fitted_with metadata) processed_data h = (inr r1, h1)
    ∧ reverse_convert (fitted_with metadata) r1 h1 = (inr r2, h2)
    ∧ h2 !! r2 = Some t2
    ∧ ∀ column row v,
        column ∈ datetime_columns (fitted_with metadata) →
        cell t column row = Some v →
        cell t2 column row = Some (Str NO_DATETIME).
Proof.
  intros Hnd Hr.
  destruct (decide (datetime_columns (fitted_with metadata) = [])) as [E|Hne].
  - exists processed_data, h, processed_data, h, t.
    split; [by apply reverse_convert_no_columns|].
    split; [by apply reverse_convert_no_columns|]. split; [done|].
    intros column row v Hc. rewrite E in Hc. by apply elem_of_nil in Hc.
  - destruct (fitted_reverse_convert metadata h processed_data t Hne Hr)
      as (t1 & E1 & _ & Hbwd1 & _).
    destruct (fitted_reverse_convert metadata (h ++ [t1]) (length h) t1 Hne)
      as (t2 & E2 & _ & Hbwd2 & _); [apply lookup_fresh|].
    eexists _, _, _, _, t2. split; [exact E1|]. split; [exact E2|].
    split; [apply lookup_fresh|]. intros column row v Hc Hcell.
    destruct (fit_usable init metadata column Hc) as [[f Hf] _].
    eapply cell_fmap in Hcell; [|by apply Hbwd1].
    eapply cell_fmap in Hcell; [|by apply Hbwd2].
    by rewrite Hcell, column_timestamp_formatter_text.
Qed.

(** X14: the two static methods never hand back the frame they are
    given: whatever the column list and the formats, the frames of the
    store stay as they were, and the frame returned, when one is, is a
    new object.  With an empty column list it is a plain copy. *)
Theorem static_methods_copy `{Platform} (column_list : list string)
    (formats : gmap string string) (h : store) (data : ref) :
  (∀ r t, h !! r = Some t →
          (convert_datetime_columns column_list formats data h).2 !! r = Some t
          ∧ (convert_timestamp_to_datetime column_list formats data h).2 !! r = Some t)
  ∧ (∀ r' h', convert_datetime_columns column_list formats data h = (inr r', h') →
              h !! r' = None)
  ∧ (∀ r' h', convert_timestamp_to_datetime column_list formats data h = (inr r', h') →
              h !! r' = None)
  ∧ (∀ t, h !! data = Some t →
          convert_datetime_columns [] formats data h = (inr (length h), h ++ [t])
          ∧ convert_timestamp_to_datetime [] formats data h = (inr (length h), h ++ [t])).
Proof.
  split; [|split; [|split]].
  - intros r t Hr. split.
    + by eapply prefix_lookup_Some, convert_datetime_columns_extends.
    + by eapply prefix_lookup_Some, convert_timestamp_to_datetime_extends.
  - intros r' h' ->%convert_datetime_columns_fresh. by apply lookup_ge_None.
  - intros r' h' ->%convert_timestamp_to_datetime_fresh. by apply lookup_ge_None.
  - intros t Ht. split.
    + by rewrite (convert_datetime_columns_returns formats [] data h t Ht)
        by (intros c Hc; by apply elem_of_nil in Hc).
    + by rewrite (convert_timestamp_to_datetime_returns formats [] data h t Ht)
        by (intros c Hc; by apply elem_of_nil in Hc).
Qed.

(** X15: [fit] leaves no usable column exactly when the format mapping
    has no entry for any datetime column of the metadata.  All those
    columns are then dead, and [convert] and [reverse_convert] still
    return the frame they are given, dead columns included. *)
Theorem no_format_no_conversion `{Platform} (metadata : Metadata) (h : store) (data : ref) :
  (datetime_columns (fitted_with metadata) = []
   ↔ ∀ c, c ∈ meta_datetime_columns metadata → meta_datetime_format metadata !! c = None)
  ∧ (datetime_columns (fitted_with metadata) = [] →
     dead_columns (fitted_with metadata) = meta_datetime_columns metadata
     ∧ convert (fitted_with metadata) data h = (inr data, h)
     ∧ reverse_convert (fitted_with metadata) data h = (inr data, h)).
Proof.
  assert (datetime_columns (fitted_with metadata) = []
          ↔ ∀ c, c ∈ meta_datetime_columns metadata →
                 meta_datetime_format metadata !! c = None) as Hiff.
  { unfold fitted_with. rewrite fit_datetime_columns, filter_empty_iff.
    split; intros Hall c Hc; specialize (Hall c Hc); by apply not_elem_of_dom. }
  split; [exact Hiff|]. intros E. split; [|split].
  - unfold fitted_with. rewrite fit_dead_columns. apply filter_all_id.
    intros c Hc. apply not_elem_of_dom. by apply Hiff.
  - by apply convert_no_columns.
  - by apply reverse_convert_no_columns.
Qed.


(** ** The further properties on sample data *)

(** Witness of X3 on the UTC platform: the first second of 1970. *)
Lemma rendering_only_of_numbers_in_range_witness :
  ∃ x d,
    Num (Int 0) = Num x
    ∧ inside_range x
    ∧ @datetime_fromtimestamp UTC.platform (Num x) = Some d
    ∧ @strftime UTC.platform d "%Y-%m-%d"
      = Some (@column_timestamp_formatter UTC.platform (Num (Int 0)) "%Y-%m-%d").
Proof.
  apply (@rendering_only_of_numbers_in_range UTC.platform (Num (Int 0)) "%Y-%m-%d").
  vm_compute. intros E. discriminate E.
Defined.




(** Witness of X8 on the UTC platform: a frame of generated values. *)
Lemma reverse_convert_keeps_shape_witness :
  ∃ t',
    @reverse_convert UTC.platform (fitted_with Scenario.metadata) 0
      [Scenario.generated_frame]
    = (inr (length [Scenario.generated_frame]), [Scenario.generated_frame] ++ [t'])
    ∧ columns t' = columns Scenario.generated_frame
    ∧ (∀ column s, getitem column Scenario.generated_frame = Some s →
                   ∃ s', getitem column t' = Some s' ∧ length s' = length s)
    ∧ (∀ column, column ∉ datetime_columns (fitted_with Scenario.metadata) →
                 getitem column t' = getitem column Scenario.generated_frame)
    ∧ (∀ column, column ∉ columns Scenario.generated_frame → getitem column t' = None).
Proof.
  apply (@reverse_convert_keeps_shape UTC.platform Scenario.metadata
           [Scenario.generated_frame] 0 Scenario.generated_frame).
  - by vm_compute.
  - reflexivity.
Defined.





(** Witness of X13 on the UTC platform: a frame of generated values. *)
Lemma reverse_convert_twice_witness :
  ∃ r1 h1 r2 h2 t2,
    @reverse_convert UTC.platform (fitted_with Scenario.metadata) 0
      [Scenario.generated_frame] = (inr r1, h1)
    ∧ @reverse_convert UTC.platform (fitted_with Scenario.metadata) r1 h1 = (inr r2, h2)
    ∧ h2 !! r2 = Some t2
    ∧ ∀ column row v,
        column ∈ datetime_columns (fitted_with Scenario.metadata) →
        cell Scenario.generated_frame column row = Some v →
        cell t2 column row = Some (Str NO_DATETIME).
Proof.
  apply (@reverse_convert_twice UTC.platform Scenario.metadata [Scenario.generated_frame] 0
           Scenario.generated_frame).
  - evaluate.
  - reflexivity.
Defined.

(** The mixed frame through both methods, on the UTC platform. *)
Example mixed_round_trip :
  (r ← @convert UTC.platform (fitted_with Scenario.metadata) 0;
   @reverse_convert UTC.platform (fitted_with Scenario.metadata) r) [Scenario.mixed_frame]
  = (inr 3,
     [Scenario.mixed_frame;
      Scenario.mixed_frame;
      [("date", [Num (Float (1672531200000000 # 1000000));
                 Num (Float (1672531200000000 # 1000000)); Missing NaN]);
       ("city", [Str "Oslo"; Str "Lima"; Str "Pune"])];
      [("date", [Str "2023-01-01"; Str "2023-01-01"; Str "No Datetime"]);
       ("city", [Str "Oslo"; Str "Lima"; Str "Pune"])]]).
Proof. vm_compute. reflexivity. Qed.

